(** * The web-search answer pipeline of [modules/websearch.py]

    A shallow embedding of [decompose_query], [perform_search],
    [scrape_content], [get_relevant_answer] and [web_search_task]
    (with [generate_response] of [modules/llm.py]), and the properties
    of the pipeline proved over it.

    - A Python [str] is a list of Unicode code points.
    - A Python [dict] with string keys is a [gmap string _]; the value
      [None] is [None] of an option type.
    - Exceptions and the outside world (language model, search provider,
      HTTP, HTML parser, the console [print] writes to) are threaded
      explicitly: a computation maps a world to a result, [Ok] or
      [Raise], and the next world. *)

From Stdlib Require Import NArith Ascii DecimalString.
From stdpp Require Import base option list gmap sets strings.

Open Scope N_scope.
Open Scope nat_scope.

(** ** Python strings *)

Module PyStr.

(** A [str] value: its code points in order. *)
Abbreviation t := (list N).

(** An ASCII literal of the program as a [str]. *)
Definition lit (s : string) : t := N_of_ascii <$> String.list_ascii_of_string s.

Definition nl : N := 10%N.
Definition dquote : N := 34%N.

(** [str.isspace] on one code point: the characters CPython's
    [Py_UNICODE_ISSPACE] accepts. *)
Definition isspace (c : N) : bool :=
  ((9 <=? c) && (c <=? 13) || (28 <=? c) && (c <=? 32)
   || (c =? 133) || (c =? 160) || (c =? 5760)
   || (8192 <=? c) && (c <=? 8202)
   || (c =? 8232) || (c =? 8233) || (c =? 8239) || (c =? 8287)
   || (c =? 12288))%N.

(** Truth value of a [str]: non-empty. *)
Definition truthy (s : t) : bool :=
  match s with [] => false | _ :: _ => true end.

Fixpoint lstrip_by (p : N → bool) (s : t) : t :=
  match s with
  | [] => []
  | c :: s' => if p c then lstrip_by p s' else s
  end.

Definition rstrip_by (p : N → bool) (s : t) : t :=
  reverse (lstrip_by p (reverse s)).

Definition strip_by (p : N → bool) (s : t) : t :=
  rstrip_by p (lstrip_by p s).

(** [s.strip()] *)
Definition strip (s : t) : t := strip_by isspace s.

(** [s.strip(chars)] *)
Definition strip_chars (chars : t) (s : t) : t :=
  strip_by (λ c, bool_decide (c ∈ chars)) s.

(** Cut [s] at every code point satisfying [p]; the pieces between
    the cuts, empty ones included. *)
Fixpoint split_at (p : N → bool) (s : t) : list t :=
  match s with
  | [] => [[]]
  | c :: s' =>
      if p c then [] :: split_at p s'
      else match split_at p s' with
           | [] => [[c]]
           | piece :: pieces => (c :: piece) :: pieces
           end
  end.

(** [s.split(sep)] for a one-character separator. *)
Definition split (sep : N) (s : t) : list t :=
  split_at (λ c, (c =? sep)%N) s.

(** [s.split()]: the maximal runs of non-whitespace. *)
Definition split_ws (s : t) : list t :=
  List.filter truthy (split_at isspace s).

(** [sep.join(parts)] *)
Fixpoint join (sep : t) (parts : list t) : t :=
  match parts with
  | [] => []
  | [x] => x
  | x :: rest => x ++ sep ++ join sep rest
  end.

(** [str(v)] for a value that is [None] or a [str], as an f-string
    formats it. *)
Definition format (v : option t) : t :=
  match v with
  | None => lit "None"
  | Some s => s
  end.

End PyStr.

Abbreviation pystr := PyStr.t.
Abbreviation py := PyStr.lit.

(** ** Exceptions, results and the world-passing monad *)

(** The exceptions the pipeline can meet: the [KeyError] of a failed
    subscript [d[k]], and an [Exception] raised by a collaborator
    (requests, ddgs, the HTML parser, the language-model client), with
    its class name and message. All are instances of [Exception], the
    class the [except] clauses of the source name. *)
Inductive py_exception : Type :=
| KeyError (key : string)
| LibraryError (cls : string) (msg : pystr).

Inductive result (A : Type) : Type :=
| Ok (a : A)
| Raise (e : py_exception).
Arguments Ok {A} a.
Arguments Raise {A} e.

#[global] Instance result_ret : MRet result := λ A a, Ok a.
#[global] Instance result_bind : MBind result := λ A B f m,
  match m with
  | Ok a => f a
  | Raise e => Raise e
  end.

(** [d[k]]: the value, or [KeyError]. *)
Definition getitem {V} (d : gmap string V) (k : string) : result V :=
  match d !! k with
  | Some v => Ok v
  | None => Raise (KeyError k)
  end.

(** [d.get(k, default)] *)
Definition get_default {V} (d : gmap string V) (k : string) (default : V) : V :=
  match d !! k with
  | Some v => v
  | None => default
  end.

(** An effectful computation over a world of type [W]. *)
Definition M (W A : Type) : Type := W → result A * W.

#[global] Instance M_ret {W} : MRet (M W) := λ A a w, (Ok a, w).
#[global] Instance M_bind {W} : MBind (M W) := λ A B f m w,
  match m w with
  | (Ok a, w') => f a w'
  | (Raise e, w') => (Raise e, w')
  end.

(** A pure, possibly raising step inside an effectful computation. *)
Definition lift {W A} (r : result A) : M W A := λ w, (r, w).

(** [try: body  except Exception as e: handler e] *)
Definition try_except {W A} (body : M W A) (handler : py_exception → M W A) : M W A :=
  λ w, match body w with
       | (Ok a, w') => (Ok a, w')
       | (Raise e, w') => handler e w'
       end.

(** [for x in xs: acc = step acc x], left to right, stopping at the
    first exception. *)
Fixpoint for_each {W A B} (xs : list A) (acc : B) (step : B → A → M W B) : M W B :=
  match xs with
  | [] => mret acc
  | x :: xs' => acc' ← step acc x; for_each xs' acc' step
  end.

(** The pure counterpart of [for_each]. *)
Fixpoint for_each_pure {A B} (xs : list A) (acc : B) (step : B → A → result B) : result B :=
  match xs with
  | [] => mret acc
  | x :: xs' => acc' ← step acc x; for_each_pure xs' acc' step
  end.

(** ** The console *)

(** The pieces of an f-string handed to [print]: literal text, a value
    that is a [str] or [None], a list of strings, an exception. *)
Inductive log_value : Type :=
| LogText (s : pystr)
| LogValue (v : option pystr)
| LogList (l : list pystr)
| LogException (e : py_exception).

(** [print(line)]: the line is formatted and written to the standard
    output, which can fail, for instance with a [UnicodeEncodeError],
    as any other call. *)
Class Console (W : Type) : Type := {
  py_print : list log_value → M W ()
}.

(** What a handler that prints a line and returns a fallback value
    does: the value, unless the [print] raises. *)
Definition log_then {W A} `{!Console W} (line : list log_value) (fallback : A) : M W A :=
  _ ← py_print line; mret fallback.

(** ** The collaborators *)

(** The [requests.Response] fields the scraper reads. *)
Record http_response : Type := { status_code : nat; text : pystr }.

(** [response.raise_for_status()] of requests: an [HTTPError] for the
    client and server error statuses, 400 to 599, and nothing for any
    other status. The message of the error, which names the status, the
    reason and the URL, is left empty. *)
Definition raise_for_status (response : http_response) : result () :=
  if decide (400 ≤ status_code response < 600)
  then Raise (LibraryError "HTTPError" [])
  else Ok ().

(** A result dictionary of the provider: string fields such as
    [title], [href], [body]. *)
Abbreviation ddg_result := (gmap string pystr).

(** A search result of the pipeline: keys [title], [link],
    [description] and, once scraped, [content]; each value a [str] or
    [None]. *)
Abbreviation search_result := (gmap string (option pystr)).

(** What the pipeline calls outside itself. Every call acts on the
    world and either returns or raises.
    - [openai_chat prompt]: [client.chat.completions.create] with model
      gpt-4, then [response.choices[0].message.content], a [str] or
      [None];
    - [gemini_generate prompt]: [generate_content_async], then
      [response.text];
    - [ddgs_text query max_results]: the results [DDGS().text] yields
      when iterated, and the exception that ends the iteration early,
      if any (an exception of the call itself yields nothing first);
    - [requests_get url timeout]: [requests.get] with the fixed
      User-Agent header;
    - [soup_get_text html]: parsing with [html.parser], removing the
      [script] and [style] elements, then
      [get_text(separator=' ', strip=True)]. *)
Class Collaborators (W : Type) : Type := {
  openai_chat : pystr → M W (option pystr);
  gemini_generate : pystr → M W pystr;
  ddgs_text : pystr → nat → W → (list ddg_result * option py_exception) * W;
  requests_get : option pystr → nat → M W http_response;
  soup_get_text : pystr → result pystr
}.

(** ** The pipeline *)

Section Pipeline.
Context {W : Type} `{!Console W} `{!Collaborators W}.

(** The log lines of the pipeline. *)
Definition response_error_line (model_type : string) (e : py_exception) : list log_value :=
  [LogText (py "Error generating response from "); LogText (py model_type);
   LogText (py ": "); LogException e].

Definition search_error_line (query : pystr) (e : py_exception) : list log_value :=
  [LogText (py "Error performing search for '"); LogText query;
   LogText (py "': "); LogException e].

Definition scrape_error_line (url : option pystr) (e : py_exception) : list log_value :=
  [LogText (py "Failed to scrape "); LogValue url; LogText (py ": "); LogException e].

(** [generate_response] of [modules/llm.py]. A model type that is
    neither [openai] nor [gemini] falls through both branches: the
    function ends without a [return], which gives [None]. *)
Definition generate_response (prompt : pystr) (model_type : string) : M W (option pystr) :=
  try_except
    (if decide (model_type = "openai") then openai_chat prompt
     else if decide (model_type = "gemini") then
       response_text ← gemini_generate prompt; mret (Some response_text)
     else mret None)
    (λ e, _ ← py_print (response_error_line model_type e); mret None).

(** The f-string prompt of [decompose_query]. *)
Definition decompose_prompt (user_query : pystr) : pystr :=
  [PyStr.nl]
  ++ py "    You are a helpful assistant. Break down the following user query into a list of 2-3 specific search queries that would help answer the original request comprehensively."
  ++ [PyStr.nl]
  ++ py "    Return ONLY a list of queries separated by newlines. No numbering or bullets. Do NOT use double quotes around the queries."
  ++ [PyStr.nl]
  ++ py "    " ++ [PyStr.nl]
  ++ py "    User Query: " ++ [PyStr.dquote] ++ user_query ++ [PyStr.dquote] ++ [PyStr.nl]
  ++ py "    ".

(** The list comprehension of [decompose_query]:
    every line [q] of [response.split(newline)] with [q.strip()] true,
    as [q.strip().strip(chars)] where [chars] is the one-character
    string of the double quote. *)
Definition parse_queries (response : pystr) : list pystr :=
  (λ q, PyStr.strip_chars [PyStr.dquote] (PyStr.strip q))
    <$> List.filter (λ q, PyStr.truthy (PyStr.strip q)) (PyStr.split PyStr.nl response).

Definition decompose_query (user_query : pystr) : M W (list pystr) :=
  response ← generate_response (decompose_prompt user_query) "openai";
  match response with
  | None => mret [user_query]
  | Some response =>
      if negb (PyStr.truthy response) then mret [user_query]
      else
        let queries := parse_queries response in
        mret (match queries with [] => [user_query] | _ :: _ => queries end)
  end.

(** The dictionary [perform_search] appends for a provider result [r]. *)
Definition to_search_result (r : ddg_result) : search_result :=
  <["title" := r !! "title"]>
    (<["link" := r !! "href"]>
       (<["description" := r !! "body"]> ∅)).

(** Running the provider's iterator to its end inside the [try]: the
    results, or the exception that interrupted it. *)
Definition iterate_ddgs (query : pystr) (num_results : nat) : M W (list ddg_result) :=
  λ w, match ddgs_text query num_results w with
       | ((items, None), w') => (Ok items, w')
       | ((_, Some e), w') => (Raise e, w')
       end.

Definition perform_search (query : pystr) (num_results : nat) : M W (list search_result) :=
  try_except
    (ddg_results ← iterate_ddgs query num_results;
     mret (to_search_result <$> ddg_results))
    (λ e, _ ← py_print (search_error_line query e); mret []).

Definition scrape_content (url : option pystr) : M W pystr :=
  try_except
    (response ← requests_get url 5;
     _ ← lift (raise_for_status response);
     text ← lift (soup_get_text (text response));
     let text := PyStr.join (py " ") (PyStr.split_ws text) in
     mret (take 2000 text))
    (λ e, _ ← py_print (scrape_error_line url e); mret []).

(** One round of the loop that builds [context] in
    [get_relevant_answer]. *)
Definition context_step (context : pystr) (res : search_result) : result pystr :=
  link ← getitem res "link";
  let context :=
    context ++ py "Source: " ++ PyStr.format (get_default res "title" (Some (py "Unknown")))
            ++ py " (" ++ PyStr.format link ++ py ")" ++ [PyStr.nl] in
  let context :=
    context ++ py "Description: " ++ PyStr.format (get_default res "description" (Some []))
            ++ [PyStr.nl] in
  let context :=
    match res !! "content" with
    | Some content => context ++ py "Content: " ++ PyStr.format content ++ [PyStr.nl]
    | None => context
    end in
  mret (context ++ py "---" ++ [PyStr.nl]).

(** The f-string prompt of [get_relevant_answer]. *)
Definition answer_prompt (user_query context : pystr) : pystr :=
  [PyStr.nl]
  ++ py "    Answer the user query based ONLY on the provided search results." ++ [PyStr.nl]
  ++ py "    Cite the sources if possible." ++ [PyStr.nl]
  ++ py "    " ++ [PyStr.nl]
  ++ py "    User Query: " ++ [PyStr.dquote] ++ user_query ++ [PyStr.dquote] ++ [PyStr.nl]
  ++ py "    " ++ [PyStr.nl]
  ++ py "    Search Results:" ++ [PyStr.nl]
  ++ py "    " ++ context ++ [PyStr.nl]
  ++ py "    ".

Definition get_relevant_answer (user_query : pystr) (search_results : list search_result)
  : M W (option pystr) :=
  context ← lift (for_each_pure search_results [] context_step);
  generate_response (answer_prompt user_query context) "openai".

(** The deduplication loop of [web_search_task]: one round. *)
Definition dedupe_step (st : gset (option pystr) * list search_result) (r : search_result)
  : result (gset (option pystr) * list search_result) :=
  let '(unique_links, unique_results) := st in
  link ← getitem r "link";
  if decide (link ∉ unique_links)
  then mret ({[link]} ∪ unique_links, unique_results ++ [r])
  else mret (unique_links, unique_results).

(** [unique_results] after the loop over [all_results]. *)
Definition dedupe_by_link (all_results : list search_result) : result (list search_result) :=
  st ← for_each_pure all_results (∅, []) dedupe_step;
  mret st.2.

(** Deduplication followed by the slice [unique_results[:topK]]; the
    source takes [topK = 3]. *)
Definition dedupeAndSelect (candidates : list search_result) (topK : nat)
  : result (list search_result) :=
  unique_results ← dedupe_by_link candidates;
  mret (take topK unique_results).

(** One round of the scraping loop: the log line, which reads
    [res['link']], then the scrape, [res['content'] = content] and
    [final_results.append(res)]. *)
Definition scrape_step (final_results : list search_result) (res : search_result)
  : M W (list search_result) :=
  logged_link ← lift (getitem res "link");
  _ ← py_print [LogText (py "Scraping: "); LogValue logged_link];
  link ← lift (getitem res "link");
  content ← scrape_content link;
  mret (final_results ++ [<["content" := Some content]> res]).

(** One round of the search loop: the log line, then the search of two
    results, appended to the candidates. *)
Definition search_step (all_results : list search_result) (q : pystr)
  : M W (list search_result) :=
  _ ← py_print [LogText (py "Searching for: "); LogText q];
  results ← perform_search q 2;
  mret (all_results ++ results).

Definition web_search_task (user_query : pystr) : M W (option pystr) :=
  sub_queries ← decompose_query user_query;
  _ ← py_print [LogText (py "Sub-queries: "); LogList sub_queries];
  all_results ← for_each sub_queries [] search_step;
  selected ← lift (dedupeAndSelect all_results 3);
  final_results ← for_each selected [] scrape_step;
  get_relevant_answer user_query final_results.

(** The decomposition and the searches, as [web_search_task] runs
    them: the candidates before deduplication. *)
Definition gathered_candidates (user_query : pystr) : M W (list search_result) :=
  sub_queries ← decompose_query user_query;
  _ ← py_print [LogText (py "Sub-queries: "); LogList sub_queries];
  for_each sub_queries [] search_step.

(** The three stages before the synthesis, as [web_search_task] runs
    them: decomposition, searches, deduplication and selection,
    scraping. *)
Definition enriched_results (user_query : pystr) : M W (list search_result) :=
  sub_queries ← decompose_query user_query;
  _ ← py_print [LogText (py "Sub-queries: "); LogList sub_queries];
  all_results ← for_each sub_queries [] search_step;
  selected ← lift (dedupeAndSelect all_results 3);
  for_each selected [] scrape_step.

(** The search for [query] fails in world [w]: the provider call or
    its iteration raises, or the response is empty. *)
Definition search_failed (query : pystr) (num_results : nat) (w : W) : Prop :=
  match (ddgs_text query num_results w).1 with
  | (_, Some _) => True
  | ([], None) => True
  | (_ :: _, None) => False
  end.

(** The fetch or the extraction for [url] fails in world [w]: the
    request raises (timeout, DNS failure, refused connection), the
    status is a client or server error, 400 to 599, or the parser
    raises. *)
Definition scrape_failed (url : option pystr) (w : W) : Prop :=
  match (requests_get url 5 w).1 with
  | Raise _ => True
  | Ok response =>
      match raise_for_status response, soup_get_text (text response) with
      | Ok _, Ok _ => False
      | _, _ => True
      end
  end.

(** The exception the [try] of [scrape_content] catches for [url] in
    world [w], if there is one, and the world it is caught in. *)
Definition scrape_exception (url : option pystr) (w : W) : option py_exception * W :=
  match requests_get url 5 w with
  | (Raise e, w1) => (Some e, w1)
  | (Ok response, w1) =>
      match raise_for_status response with
      | Raise e => (Some e, w1)
      | Ok _ =>
          match soup_get_text (text response) with
          | Raise e => (Some e, w1)
          | Ok _ => (None, w1)
          end
      end
  end.

(** The log line of a failure, when there is one, is printed: the
    [print] of the handler returns. One notion for each handler of the
    pipeline. *)
Definition model_log_printed (prompt : pystr) (w : W) : Prop :=
  match openai_chat prompt w with
  | (Raise e, w1) => (py_print (response_error_line "openai" e) w1).1 = Ok ()
  | (Ok _, _) => True
  end.

Definition search_log_printed (query : pystr) (num_results : nat) (w : W) : Prop :=
  match ddgs_text query num_results w with
  | ((_, Some e), w1) => (py_print (search_error_line query e) w1).1 = Ok ()
  | ((_, None), _) => True
  end.

Definition scrape_log_printed (url : option pystr) (w : W) : Prop :=
  match scrape_exception url w with
  | (Some e, w1) => (py_print (scrape_error_line url e) w1).1 = Ok ()
  | (None, _) => True
  end.

(** A set of worlds in which the console works: [print] returns there,
    and neither [print] nor a call of the pipeline to a collaborator
    leaves the set. *)
Record console_works (quiet : W → Prop) : Prop := {
  quiet_print : ∀ line w, quiet w → ∃ w', py_print line w = (Ok (), w') ∧ quiet w';
  quiet_openai : ∀ prompt w, quiet w → quiet (openai_chat prompt w).2;
  quiet_ddgs : ∀ query num_results w, quiet w → quiet (ddgs_text query num_results w).2;
  quiet_get : ∀ url timeout w, quiet w → quiet (requests_get url timeout w).2
}.

End Pipeline.

(** ** Notions the properties are stated with *)

(** The deduplication key of a result: what [r['link']] reads, if the
    key is there. *)
Definition link_of (r : search_result) : option (option pystr) := r !! "link".

(** [r['link']] does not raise. *)
Definition has_link (r : search_result) : Prop := is_Some (r !! "link").

(** The candidates whose link occurs for the first time at their
    position, in input order. *)
Definition first_occurrences (candidates : list search_result) : list search_result :=
  mjoin (imap (λ i r, if decide (link_of r ∈ link_of <$> take i candidates) then [] else [r])
              candidates).

(** The first occurrences in [l] of the links that are not among
    [seen]: the loop of the source with its set of seen links kept as
    the list of keys read so far. *)
Fixpoint firsts_after (seen : list (option (option pystr))) (l : list search_result)
  : list search_result :=
  match l with
  | [] => []
  | r :: l' =>
      (if decide (link_of r ∈ seen) then [] else [r])
        ++ firsts_after (seen ++ [link_of r]) l'
  end.

(** The number of distinct link values among the candidates. *)
Definition distinct_links (candidates : list search_result) : nat :=
  size (list_to_set (link_of <$> candidates) : gset (option (option pystr))).


(** A line made of double-quote characters only (at least one), once
    its surrounding whitespace is removed. *)
Definition quotes_only (line : pystr) : Prop :=
  PyStr.strip line ≠ [] ∧ Forall (λ c, c = PyStr.dquote) (PyStr.strip line).


(** A model call from which no sub-query comes: it fails, or the list
    parsed from its text is empty. *)
Definition no_usable_reply (outcome : result (option pystr)) : Prop :=
  match outcome with
  | Raise _ | Ok None => True
  | Ok (Some response) => parse_queries response = []
  end.

(** The outcome of a computation started in world [w]: it returns, and
    value and next world satisfy [Q]. *)
Definition returns {W A} (m : M W A) (w : W) (Q : A → W → Prop) : Prop :=
  match m w with
  | (Ok a, w') => Q a w'
  | (Raise _, _) => False
  end.

(** ** A scripted world

    The replies of the collaborators are fixed in advance and consumed
    in call order; a collaborator whose script has run out raises. The
    status check follows requests (an error for 400 to 599) and the
    HTML is taken to be plain text already. *)

Record script : Type := {
  llm_script : list (result (option pystr));
  search_script : list (list ddg_result * option py_exception);
  fetch_script : list (result http_response);
  console_script : list (result ())
}.

Definition script_llm (prompt : pystr) : M script (option pystr) :=
  λ w, match llm_script w with
       | [] => (Raise (LibraryError "APIConnectionError" []), w)
       | reply :: rest =>
           (reply, {| llm_script := rest; search_script := search_script w;
                      fetch_script := fetch_script w;
                      console_script := console_script w |})
       end.

Definition script_search (query : pystr) (max_results : nat)
  : script → (list ddg_result * option py_exception) * script :=
  λ w, match search_script w with
       | [] => (([], Some (LibraryError "DDGSException" [])), w)
       | reply :: rest =>
           (reply, {| llm_script := llm_script w; search_script := rest;
                      fetch_script := fetch_script w;
                      console_script := console_script w |})
       end.

(** A request without URL raises, as [requests.get(None)] does, and
    uses up no reply. *)
Definition script_get (url : option pystr) (timeout : nat) : M script http_response :=
  λ w, match url, fetch_script w with
       | None, _ => (Raise (LibraryError "MissingSchema" []), w)
       | Some _, [] => (Raise (LibraryError "ConnectionError" []), w)
       | Some _, reply :: rest =>
           (reply, {| llm_script := llm_script w; search_script := search_script w;
                      fetch_script := rest;
                      console_script := console_script w |})
       end.

(** The console answers each [print] with the next scripted outcome,
    and accepts every line once its script has run out. *)
Definition script_print (line : list log_value) : M script () :=
  λ w, match console_script w with
       | [] => (Ok (), w)
       | outcome :: rest =>
           (outcome, {| llm_script := llm_script w; search_script := search_script w;
                        fetch_script := fetch_script w;
                        console_script := rest |})
       end.

#[global] Instance scripted : Collaborators script := {|
  openai_chat := script_llm;
  gemini_generate := λ prompt w, (Raise (LibraryError "NotConfigured" []), w);
  ddgs_text := script_search;
  requests_get := script_get;
  soup_get_text := λ html, Ok html
|}.

#[global] Instance scripted_console : Console script := {|
  py_print := script_print
|}.

(** The scripted worlds whose console accepts every line still to
    come. *)
Definition console_quiet (w : script) : Prop :=
  Forall (λ outcome, outcome = Ok ()) (console_script w).

(** A world in which the model answers the first call with [reply] and
    every other collaborator has nothing to give. *)
Definition one_reply (reply : pystr) : script :=
  {| llm_script := [Ok (Some reply)]; search_script := []; fetch_script := [];
     console_script := [] |}.

(** A world in which every collaborator fails, the console works once
    and then rejects a line. *)
Definition console_breaks : script :=
  {| llm_script := []; search_script := []; fetch_script := [];
     console_script := [Ok (); Raise (LibraryError "UnicodeEncodeError" [])] |}.

(** A world in which every collaborator fails and the console rejects
    the first line it is given. *)
Definition console_down : script :=
  {| llm_script := []; search_script := []; fetch_script := [];
     console_script := [Raise (LibraryError "UnicodeEncodeError" [])] |}.


(** A world whose one fetch is answered with a redirection status and
    a body. *)
Definition redirected : script :=
  {| llm_script := []; search_script := [];
     fetch_script := [Ok {| status_code := 302; text := py "moved   here" |}];
     console_script := [] |}.

(** A provider result with the given fields. *)
Definition ddg (title href body : string) : ddg_result :=
  <["title" := py title]> (<["href" := py href]> (<["body" := py body]> ∅)).

(** A provider result without [href]. *)
Definition ddg_no_href (title body : string) : ddg_result :=
  <["title" := py title]> (<["body" := py body]> ∅).

(** A candidate carrying only a link, as in the scenarios. *)
Definition only_link (l : string) : search_result := {[ "link" := Some (py l) ]}.

(** A reply of two lines, the second in double quotes. *)
Definition two_line_reply : pystr :=
  py "state park trails" ++ [PyStr.nl]
  ++ [PyStr.dquote] ++ py "trail maps" ++ [PyStr.dquote].

(** A reply whose second line is two double quotes and nothing else. *)
Definition quoted_nothing_reply : pystr :=
  py "state park trails" ++ [PyStr.nl] ++ [PyStr.dquote; PyStr.dquote].

(** A world where the decomposition and every search fail and the
    model then answers the synthesis. *)
Definition only_synthesis_works : script :=
  {| llm_script := [Raise (LibraryError "RateLimitError" []); Ok (Some (py "no sources"))];
     search_script := [];
     fetch_script := [];
     console_script := [] |}.

(** A world with two sub-queries, a repeated link, a result without
    [href], and a fetch that times out. *)
Definition busy_world : script :=
  {| llm_script := [Ok (Some two_line_reply); Ok (Some (py "answer"))];
     search_script :=
       [ ([ddg "Parks" "https://a.example" "about parks";
           ddg_no_href "Lost" "no address"], None);
         ([ddg "Parks again" "https://a.example" "more about parks";
           ddg "Maps" "https://b.example" "about maps"], None) ];
     fetch_script :=
       [ Ok {| status_code := 200; text := py "  many   trails  " |};
         Raise (LibraryError "Timeout" []);
         Ok {| status_code := 503; text := py "unavailable" |} ];
     console_script := [] |}.

(** ** Further notions: the stages seen from their users *)

(** The search loop of [web_search_task]: for each sub-query a log
    line and one search of two results, the results appended in
    order. *)
Definition search_all {W : Type} `{!Console W} `{!Collaborators W}
  (sub_queries : list pystr) : M W (list search_result) :=
  for_each sub_queries [] search_step.

(** A query as the decomposition prompt asks for it: not empty, on one
    line, with no whitespace and no double quote at either end. *)
Definition clean_query (q : pystr) : Prop :=
  q ≠ []
  ∧ (PyStr.nl ∉ q)
  ∧ (∀ c, head q = Some c → PyStr.isspace c = false ∧ c ≠ PyStr.dquote)
  ∧ (∀ c, last q = Some c → PyStr.isspace c = false ∧ c ≠ PyStr.dquote).

(** What the scraping loop makes of a selected result: the same result
    with a content of at most 2000 characters. *)
Definition enriched_from (res enriched : search_result) : Prop :=
  ∃ content : pystr,
    enriched = <["content" := Some content]> res ∧ length content ≤ 2000.

(** A sub-query that holds no line feed (code point 10) and has no
    double quote at either end. *)
Definition unquoted_no_newline (q : pystr) : Prop :=
  (PyStr.nl ∉ q) ∧ head q ≠ Some PyStr.dquote ∧ last q ≠ Some PyStr.dquote.

(** The three clean queries of a well-formed reply. *)
Definition three_queries : list pystr :=
  [py "state park trails"; py "trail maps"; py "hiking gear"].

(** ** Streaming ([modules/llm.py]) and persistence ([modules/chat.py]) *)

(** The run of an asynchronous generator: what it yields, in order, and
    the exception that ends it, if one does. *)
Definition generated (W A : Type) : Type := W → (list A * option py_exception) * W.

(** The streaming calls of the providers.
    - [openai_stream prompt]: the [delta.content] of each chunk of
      [client.chat.completions.create] with [stream=True], a [str] or
      [None];
    - [gemini_stream prompt]: the [text] of each chunk of
      [generate_content_async] with [stream=True]. *)
Class Streams (W : Type) : Type := {
  openai_stream : pystr → generated W (option pystr);
  gemini_stream : pystr → generated W pystr
}.

(** A request the query builder of the database client sends with
    [execute()]: the table, the operation, the [eq] filters in call
    order and the [order] clause. *)
Inductive sb_query : Type :=
| Select (table columns : string) (filters : list (string * pystr))
         (order : option (string * bool))
| Insert (table : string) (row : gmap string pystr)
| Update (table : string) (row : gmap string pystr) (filters : list (string * pystr)).

(** The database client: [sb_execute q] is [response.data] of the
    executed request, a list of rows, unless the request raises. *)
Class Supabase (W Row : Type) : Type := {
  sb_execute : sb_query → M W (list Row)
}.

(** The log lines of [modules/chat.py] and of the [chat] endpoint. *)
Definition error_line (what : string) (e : py_exception) : list log_value :=
  [LogText (py what); LogException e].

(** The call [generate_and_save] hands to [asyncio.create_task]. *)
Record save_call : Type := {
  save_user_id : pystr;
  save_thread_id : pystr;
  save_prompt : pystr;
  save_response : pystr
}.

Section Streaming.
Context {W : Type} `{!Console W} `{!Streams W}.

(** The test [if content:] on a chunk's content. *)
Definition nonempty_content (content : option pystr) : option pystr :=
  match content with
  | Some s => if PyStr.truthy s then Some s else None
  | None => None
  end.

Definition stream_openai (prompt : pystr) : generated W pystr :=
  λ w, match openai_stream prompt w with
       | ((chunks, err), w') => ((omap nonempty_content chunks, err), w')
       end.

Definition stream_gemini (prompt : pystr) : generated W pystr :=
  λ w, match gemini_stream prompt w with
       | ((chunks, err), w') =>
           ((omap (λ chunk_text, nonempty_content (Some chunk_text)) chunks, err), w')
       end.

(** The run of the generator of the [chat] endpoint: what it yields,
    the save it schedules in its [finally] clause, and the exception
    that leaves it, if one does. *)
Record streamed : Type := {
  yielded : list pystr;
  scheduled : option save_call;
  escaped : option py_exception
}.

(** The save scheduled for the chunks a run yielded: none when nothing
    was yielded, and else their text put end to end. *)
Definition saved_call (user_id thread_id prompt : pystr) (chunks : list pystr)
  : option save_call :=
  match chunks with
  | [] => None
  | _ :: _ =>
      Some {| save_user_id := user_id; save_thread_id := thread_id;
              save_prompt := prompt; save_response := mjoin chunks |}
  end.

(** The generator of the [chat] endpoint of [app/main.py]. An exception
    of the stream ends the loop and is logged by the handler; the
    [finally] clause runs after the handler, also when the [print] of
    the handler raises, and that exception then leaves the generator. *)
Definition generate_and_save (user_id thread_id prompt provider : pystr)
  : W → streamed * W :=
  λ w,
    let generator_func :=
      if decide (provider = py "gemini") then stream_gemini prompt
      else stream_openai prompt in
    match generator_func w with
    | ((chunks, err), w1) =>
        let full_response := foldl (λ full_response chunk, full_response ++ chunk) [] chunks in
        let handled :=
          match err with
          | None => (Ok (), w1)
          | Some e => py_print (error_line "Stream error: " e) w1
          end in
        let save :=
          if PyStr.truthy full_response
          then Some {| save_user_id := user_id; save_thread_id := thread_id;
                       save_prompt := prompt; save_response := full_response |}
          else None in
        match handled with
        | (Ok _, w2) => ({| yielded := chunks; scheduled := save; escaped := None |}, w2)
        | (Raise e', w2) =>
            ({| yielded := chunks; scheduled := save; escaped := Some e' |}, w2)
        end
    end.

End Streaming.

Section Chat.
Context {W Row : Type} `{!Console W} `{!Supabase W Row}.

(** The request of [get_user_threads]. *)
Definition threads_query (user_id : pystr) : sb_query :=
  Select "threads" "id, title, created_at, updated_at"
         [("user_id", user_id)] (Some ("updated_at", true)).

(** The second request of [get_thread_chats]. *)
Definition chats_query (thread_id : pystr) : sb_query :=
  Select "chat_history" "id, query, response, created_at"
         [("thread_id", thread_id)] (Some ("created_at", false)).

(** The request of [create_thread]. *)
Definition insert_thread (user_id title : pystr) : sb_query :=
  Insert "threads" (<["user_id" := user_id]> (<["title" := title]> ∅)).

Definition get_user_threads (user_id : pystr) : M W (list Row) :=
  try_except
    (sb_execute (threads_query user_id))
    (λ e, _ ← py_print (error_line "Error fetching threads: " e); mret []).

(** The request that checks that the thread belongs to the user. *)
Definition ownership_query (user_id thread_id : pystr) : sb_query :=
  Select "threads" "id" [("id", thread_id); ("user_id", user_id)] None.

Definition get_thread_chats (user_id thread_id : pystr) : M W (list Row) :=
  try_except
    (thread_data ← sb_execute (ownership_query user_id thread_id);
     match thread_data with
     | [] => mret []
     | _ :: _ => sb_execute (chats_query thread_id)
     end)
    (λ e, _ ← py_print (error_line "Error fetching chats: " e); mret []).

Definition create_thread (user_id title : pystr) : M W (option Row) :=
  try_except
    (data ← sb_execute (insert_thread user_id title);
     match data with
     | row :: _ => mret (Some row)
     | [] => mret None
     end)
    (λ e, _ ← py_print (error_line "Error creating thread: " e); mret None).

(** The two requests of [save_chat_message]. *)
Definition insert_message (thread_id prompt response : pystr) : sb_query :=
  Insert "chat_history"
    (<["thread_id" := thread_id]> (<["query" := prompt]> (<["response" := response]> ∅))).

Definition touch_thread (thread_id : pystr) : sb_query :=
  Update "threads" (<["updated_at" := py "now()"]> ∅) [("id", thread_id)].

Definition save_chat_message (user_id thread_id prompt response : pystr) : M W bool :=
  try_except
    (_ ← sb_execute (insert_message thread_id prompt response);
     _ ← sb_execute (touch_thread thread_id);
     mret true)
    (λ e, _ ← py_print (error_line "Error saving chat: " e); mret false).

End Chat.

(** ** The protected endpoints ([app/main.py]) *)

(** What an endpoint can raise: the framework's [HTTPException], the
    [IndexError] of a list subscript, or an exception of a
    collaborator. All are instances of [Exception]. *)
Inductive api_exception : Type :=
| HTTPException (status_code : nat) (detail : pystr)
| IndexError
| Uncaught (e : py_exception).

Inductive outcome (A : Type) : Type :=
| Return (a : A)
| Throw (e : api_exception).
Arguments Return {A} a.
Arguments Throw {A} e.

(** An endpoint over a world of type [W]. *)
Definition H (W A : Type) : Type := W → outcome A * W.

#[global] Instance H_ret {W} : MRet (H W) := λ A a w, (Return a, w).
#[global] Instance H_bind {W} : MBind (H W) := λ A B f m w,
  match m w with
  | (Return a, w') => f a w'
  | (Throw e, w') => (Throw e, w')
  end.

(** [raise e] *)
Definition throw {W A} (e : api_exception) : H W A := λ w, (Throw e, w).

(** A function of the modules, awaited by an endpoint. *)
Definition call {W A} (m : M W A) : H W A :=
  λ w, match m w with
       | (Ok a, w') => (Return a, w')
       | (Raise e, w') => (Throw (Uncaught e), w')
       end.

(** [try: body  except Exception as e: handler e] in an endpoint. *)
Definition try_except_api {W A} (body : H W A) (handler : api_exception → H W A) : H W A :=
  λ w, match body w with
       | (Return a, w') => (Return a, w')
       | (Throw e, w') => handler e w'
       end.

(** A step of an endpoint that calls nothing outside. *)
Definition pure_step {W A} (r : outcome A) : H W A := λ w, (r, w).

(** [StreamingResponse(generator)], the generator run to its end. *)
Definition streaming_response {W A} (generator : W → A * W) : H W A :=
  λ w, match generator w with
       | (streamed, w') => (Return streamed, w')
       end.

(** [s.startswith(prefix)] *)
Fixpoint startswith (s prefix : pystr) : bool :=
  match prefix, s with
  | [], _ => true
  | _ :: _, [] => false
  | p :: prefix', c :: s' => (c =? p)%N && startswith s' prefix'
  end.

(** The header check and the token extraction that open [new_chat],
    [chat], [get_threads], [get_chats] and [delete_thread_endpoint];
    the header is [None] when the request has none. *)
Definition bearer_token (authorization : option pystr) : outcome pystr :=
  match authorization with
  | None => Throw (HTTPException 401 (py "Missing or invalid token"))
  | Some authorization =>
      if negb (PyStr.truthy authorization) || negb (startswith authorization (py "Bearer "))
      then Throw (HTTPException 401 (py "Missing or invalid token"))
      else match PyStr.split 32%N authorization !! 1 with
           | Some token => Return token
           | None => Throw IndexError
           end
  end.

(** What the endpoints need besides the database and the streams.
    - [auth_get_user token]: [get_user] of [modules/auth.py], read as
      the endpoints read it: the [id] of [user_res.user], or [None]
      when [user_res.user] is not set;
    - [row_truthy row]: the truth value of a row;
    - [exception_str e]: [str(e)]. *)
Class Framework (W Row : Type) : Type := {
  auth_get_user : pystr → M W (option pystr);
  row_truthy : Row → bool;
  exception_str : api_exception → pystr
}.

Section Endpoints.
Context {W Row : Type} `{!Console W} `{!Supabase W Row} `{!Framework W Row} `{!Streams W}.

(** [user_res = await get_user(token)] followed by the session test;
    the user's id. *)
Definition session_user (token : pystr) : H W pystr :=
  user ← call (auth_get_user token);
  match user with
  | None => throw (HTTPException 401 (py "Invalid session"))
  | Some user_id => mret user_id
  end.

Definition new_chat (title : pystr) (authorization : option pystr) : H W Row :=
  token ← pure_step (bearer_token authorization);
  try_except_api
    (user_id ← session_user token;
     thread ← call (create_thread user_id title);
     match thread with
     | Some row =>
         if row_truthy row then mret row
         else throw (HTTPException 500 (py "Failed to create thread"))
     | None => throw (HTTPException 500 (py "Failed to create thread"))
     end)
    (λ e, throw (HTTPException 500 (exception_str e))).

Definition get_threads (authorization : option pystr) : H W (list Row) :=
  token ← pure_step (bearer_token authorization);
  try_except_api
    (user_id ← session_user token;
     call (get_user_threads user_id))
    (λ e, throw (HTTPException 500 (exception_str e))).

Definition get_chats (thread_id : pystr) (authorization : option pystr) : H W (list Row) :=
  token ← pure_step (bearer_token authorization);
  try_except_api
    (user_id ← session_user token;
     call (get_thread_chats user_id thread_id))
    (λ e, throw (HTTPException 500 (exception_str e))).

(** The [chat] endpoint, with the stream it returns run to its end. *)
Definition chat (prompt thread_id provider : pystr) (authorization : option pystr)
  : H W streamed :=
  token ← pure_step (bearer_token authorization);
  user_id ← try_except_api (session_user token)
               (λ e, throw (HTTPException 401 (py "Authentication failed")));
  streaming_response (generate_and_save user_id thread_id prompt provider).

End Endpoints.

(** A small world for the endpoints: the database answers every request
    with one row, the token [good] belongs to user [u1] and no other
    token to anyone, the provider streams two chunks around an empty
    one and then breaks. *)
Definition demo_db : Supabase unit pystr :=
  {| sb_execute := λ q w, (Ok [py "row"], w) |}.

(** [str(e)]: status and detail of an [HTTPException], the quoted key
    of a [KeyError], the message of any other exception. *)
Definition demo_framework : Framework unit pystr :=
  {| auth_get_user := λ token w,
       (Ok (if decide (token = py "good") then Some (py "u1") else None), w);
     row_truthy := PyStr.truthy;
     exception_str := λ e, match e with
                           | HTTPException status detail =>
                               py (NilEmpty.string_of_uint (Nat.to_uint status))
                               ++ py ": " ++ detail
                           | IndexError => py "list index out of range"
                           | Uncaught (KeyError key) => py "'" ++ py key ++ py "'"
                           | Uncaught (LibraryError _ msg) => msg
                           end |}.

Definition demo_console : Console unit :=
  {| py_print := λ line w, (Ok (), w) |}.

Definition demo_streams : Streams unit :=
  {| openai_stream := λ prompt w,
       (([Some (py "Hel"); Some []; None; Some (py "lo")],
         Some (LibraryError "APIConnectionError" [])), w);
     gemini_stream := λ prompt w, (([py "Hi"], None), w) |}.

(** * Properties *)

(** ** Results and computations *)

Lemma getitem_has_link (r : search_result) :
  has_link r → ∃ v, getitem r "link" = Ok v ∧ link_of r = Some v.
Proof.
  intros [v Hv]. exists v. unfold getitem, link_of. by rewrite Hv.
Qed.

(** ** Deduplication *)

Section Dedup.
Implicit Types (r : search_result) (l : list search_result).
Implicit Types (seen : list (option (option pystr))).

Lemma first_occurrences_from (pre l : list search_result) :
  mjoin (imap (λ i r, if decide (link_of r ∈ link_of <$> (pre ++ take i l))
                      then [] else [r]) l)
  = firsts_after (link_of <$> pre) l.
Proof.
  revert pre. induction l as [|x l IH]; intros pre; [done|].
  rewrite imap_cons. simpl. rewrite app_nil_r. f_equal.
  change [link_of x] with (link_of <$> [x]).
  rewrite <- (fmap_app link_of pre [x]), <- IH. f_equal.
  apply imap_ext. intros i r _. simpl.
  by rewrite <- app_assoc.
Qed.

Lemma first_occurrences_firsts l : first_occurrences l = firsts_after [] l.
Proof. apply (first_occurrences_from [] l). Qed.

Lemma dedupe_step_link (links : gset (option pystr)) (out : list search_result) r v :
  getitem r "link" = Ok v →
  dedupe_step (links, out) r
  = Ok (if decide (v ∉ links) then ({[v]} ∪ links, out ++ [r]) else (links, out)).
Proof. intros Hget. unfold dedupe_step. rewrite Hget. simpl. by case_decide. Qed.

Lemma dedupe_loop l :
  ∀ (links : gset (option pystr)) (out : list search_result) seen,
    Forall has_link l →
    (∀ v, v ∈ links ↔ Some v ∈ seen) →
    ∃ links', for_each_pure l (links, out) dedupe_step
              = Ok (links', out ++ firsts_after seen l).
Proof.
  induction l as [|r l IH]; intros links out seen Hl Hseen.
  - exists links. simpl. by rewrite app_nil_r.
  - apply Forall_cons in Hl as [Hr Hl].
    destruct (getitem_has_link r Hr) as (v & Hget & Hv).
    cbn [for_each_pure firsts_after].
    rewrite (dedupe_step_link _ _ _ _ Hget), Hv.
    destruct (decide (v ∉ links)) as [Hnew|Hold]; simpl.
    + rewrite decide_False by (by rewrite <- Hseen).
      edestruct (IH ({[v]} ∪ links) (out ++ [r]) (seen ++ [Some v])) as [links' ->];
        [done| |].
      * intros u. rewrite elem_of_union, elem_of_singleton, elem_of_app, list_elem_of_singleton.
        rewrite Hseen. split; intros [?|?]; simplify_eq; auto.
      * exists links'. by rewrite <- app_assoc.
    + apply dec_stable in Hold.
      rewrite decide_True by (by rewrite <- Hseen).
      edestruct (IH links out (seen ++ [Some v])) as [links' ->]; [done| |].
      * intros u. rewrite elem_of_app, list_elem_of_singleton, Hseen.
        split; [by left|]. intros [?|[= ->]]; [done|]. by apply Hseen.
      * by exists links'.
Qed.

Lemma dedupe_by_link_first_occurrences l :
  Forall has_link l → dedupe_by_link l = Ok (first_occurrences l).
Proof.
  intros Hl. unfold dedupe_by_link.
  destruct (dedupe_loop l ∅ [] [] Hl) as [links' ->]; [set_solver|].
  simpl. by rewrite first_occurrences_firsts.
Qed.

End Dedup.

Section FirstOccurrences.
Implicit Types (r : search_result) (l : list search_result).
Implicit Types (seen : list (option (option pystr))).

Lemma firsts_after_sublist seen l : firsts_after seen l `sublist_of` l.
Proof.
  revert seen. induction l as [|r l IH]; intros seen; simpl; [done|].
  case_decide; simpl.
  - by apply sublist_cons.
  - by apply sublist_skip.
Qed.

Lemma firsts_after_fresh seen l r :
  r ∈ firsts_after seen l → link_of r ∉ seen.
Proof.
  revert seen. induction l as [|x l IH]; intros seen; simpl.
  - by intros ?%elem_of_nil.
  - rewrite elem_of_app. intros [Hx|Hr].
    + case_decide; [by apply elem_of_nil in Hx|].
      by apply list_elem_of_singleton in Hx as ->.
    + apply IH in Hr. rewrite elem_of_app in Hr. tauto.
Qed.

Lemma firsts_after_NoDup seen l : NoDup (link_of <$> firsts_after seen l).
Proof.
  revert seen. induction l as [|x l IH]; intros seen; simpl; [constructor|].
  rewrite fmap_app. apply NoDup_app. split_and!; [| |apply IH].
  - case_decide; simpl; [constructor|apply NoDup_singleton].
  - intros k Hk. case_decide; simpl in Hk; [by apply elem_of_nil in Hk|].
    apply list_elem_of_singleton in Hk as ->.
    intros (r & Hr & Hin)%list_elem_of_fmap.
    apply firsts_after_fresh in Hin. rewrite <- Hr in Hin.
    apply Hin, elem_of_app. right. by apply list_elem_of_singleton.
Qed.

(** Every link of the input is the link of a result that is kept,
    unless it was seen before. *)
Lemma firsts_after_links seen l k :
  k ∈ link_of <$> l → k ∈ seen ∨ k ∈ link_of <$> firsts_after seen l.
Proof.
  revert seen. induction l as [|x l IH]; intros seen; simpl.
  - by intros ?%elem_of_nil.
  - rewrite elem_of_cons. intros [->|Hk].
    + case_decide; [by left|]. right. simpl. apply elem_of_cons. by left.
    + destruct (IH (seen ++ [link_of x]) Hk) as [Hs|Hf].
      * apply elem_of_app in Hs as [?|Hs]; [by left|].
        apply list_elem_of_singleton in Hs as ->.
        case_decide; [by left|]. right. simpl. apply elem_of_cons. by left.
      * right. rewrite fmap_app, elem_of_app. by right.
Qed.

(** A list without repeated links, none of them seen, is kept whole. *)
Lemma firsts_after_id seen l :
  NoDup (link_of <$> l) → (∀ r, r ∈ l → link_of r ∉ seen) → firsts_after seen l = l.
Proof.
  revert seen. induction l as [|x l IH]; intros seen Hnd Hfresh; simpl; [done|].
  rewrite fmap_cons in Hnd. apply NoDup_cons in Hnd as [Hx Hnd].
  rewrite decide_False by (apply Hfresh; by left). simpl. f_equal.
  apply IH; [done|]. intros r Hr.
  rewrite elem_of_app, list_elem_of_singleton. intros [Hs|Heq].
  - apply (Hfresh r); [by right|done].
  - apply Hx. rewrite <- Heq. apply list_elem_of_fmap. eauto.
Qed.

(** Of the results carrying a given link, only the first is kept. *)
Lemma firsts_after_filter seen l (k : option (option pystr)) :
  filter (λ r, link_of r = k) (firsts_after seen l)
  = if decide (k ∈ seen) then [] else take 1 (filter (λ r, link_of r = k) l).
Proof.
  revert seen. induction l as [|x l IH]; intros seen; simpl.
  - by case_decide.
  - rewrite filter_app, IH, filter_cons.
    destruct (decide (link_of x = k)) as [Hk|Hk].
    + rewrite (decide_True (P := k ∈ seen ++ [link_of x]))
        by (apply elem_of_app; right; by apply list_elem_of_singleton).
      rewrite app_nil_r. subst k.
      case_decide; [done|]. rewrite filter_cons. by rewrite decide_True.
    + assert (filter (λ r, link_of r = k)
                (if decide (link_of x ∈ seen) then [] else [x]) = []) as ->.
      { case_decide; [done|]. rewrite filter_cons. by rewrite decide_False. }
      simpl. destruct (decide (k ∈ seen)) as [Hs|Hs].
      * rewrite decide_True; [done|]. apply elem_of_app. by left.
      * rewrite decide_False; [done|].
        rewrite elem_of_app, list_elem_of_singleton. intros [?|?]; [done|congruence].
Qed.

End FirstOccurrences.

Section Select.
Implicit Types (r : search_result) (l : list search_result).

Lemma first_occurrences_sublist l : first_occurrences l `sublist_of` l.
Proof. rewrite first_occurrences_firsts. apply firsts_after_sublist. Qed.

Lemma first_occurrences_NoDup l : NoDup (link_of <$> first_occurrences l).
Proof. rewrite first_occurrences_firsts. apply firsts_after_NoDup. Qed.

(** Deduplication keeps one result per distinct link. *)
Lemma first_occurrences_length l : length (first_occurrences l) = distinct_links l.
Proof.
  unfold distinct_links.
  rewrite <- (length_fmap link_of), <- (size_list_to_set (C := gset _))
    by apply first_occurrences_NoDup.
  f_equal. apply set_eq. intros k. rewrite !elem_of_list_to_set. split.
  - intros (r & -> & Hr)%list_elem_of_fmap. apply list_elem_of_fmap.
    exists r. split; [done|]. eapply elem_of_sublist; [done|apply first_occurrences_sublist].
  - intros Hk. rewrite first_occurrences_firsts.
    by destruct (firsts_after_links [] l k Hk) as [?%elem_of_nil|?].
Qed.

Lemma first_occurrences_id l :
  NoDup (link_of <$> l) → first_occurrences l = l.
Proof.
  intros Hnd. rewrite first_occurrences_firsts.
  apply firsts_after_id; [done|]. by intros r _ ?%elem_of_nil.
Qed.

Lemma has_link_sublist l l' :
  l' `sublist_of` l → Forall has_link l → Forall has_link l'.
Proof.
  intros Hsub. rewrite !Forall_forall. intros Hl r Hr.
  eapply Hl, elem_of_sublist; done.
Qed.

Lemma take_NoDup_links l (n : nat) :
  NoDup (link_of <$> l) → NoDup (link_of <$> take n l).
Proof.
  intros Hnd. rewrite fmap_take. eapply sublist_NoDup; [done|apply sublist_take].
Qed.

Lemma dedupeAndSelect_Ok l (topK : nat) :
  Forall has_link l → dedupeAndSelect l topK = Ok (take topK (first_occurrences l)).
Proof.
  intros Hl. unfold dedupeAndSelect.
  by rewrite (dedupe_by_link_first_occurrences l Hl).
Qed.

(** The loop only ends normally when every candidate has a link. *)
Lemma dedupe_loop_has_link l :
  ∀ st st', for_each_pure l st dedupe_step = Ok st' → Forall has_link l.
Proof.
  induction l as [|r l IH]; intros st st' Hrun; [constructor|].
  simpl in Hrun. destruct (dedupe_step st r) as [st1|e] eqn:Hstep; [|done].
  constructor; [|by eapply IH].
  destruct st as [links out]. unfold dedupe_step, getitem in Hstep.
  unfold has_link. destruct (r !! "link"); [by eexists|done].
Qed.

Lemma dedupeAndSelect_has_link l (topK : nat) out :
  dedupeAndSelect l topK = Ok out → Forall has_link l.
Proof.
  unfold dedupeAndSelect, dedupe_by_link. intros Hrun.
  destruct (for_each_pure l (∅, []) dedupe_step) as [st|e] eqn:Hloop; [|done].
  by eapply dedupe_loop_has_link.
Qed.

End Select.

(** C2. For every list of candidates (each with a [link] key),
    [dedupeAndSelect] returns the candidates whose link occurs for the
    first time at their position, in input order, cut to the first
    [topK] (3 in [web_search_task]); no two results of the output have
    the same link, and the output has at most
    [min topK (number of distinct links)] results. *)
Theorem dedupeAndSelect_spec (candidates : list search_result) (topK : nat) :
  Forall has_link candidates →
  ∃ out,
    dedupeAndSelect candidates topK = Ok out
    ∧ out = take topK (first_occurrences candidates)
    ∧ out `sublist_of` candidates
    ∧ NoDup (link_of <$> out)
    ∧ length out ≤ min topK (distinct_links candidates).
Proof.
  intros Hl. exists (take topK (first_occurrences candidates)).
  split_and!.
  - by apply dedupeAndSelect_Ok.
  - done.
  - etrans; [apply sublist_take|apply first_occurrences_sublist].
  - apply take_NoDup_links, first_occurrences_NoDup.
  - rewrite length_take, first_occurrences_length. done.
Qed.

Lemma dedupeAndSelect_spec_witness :
  ∃ out,
    dedupeAndSelect [only_link "a"; only_link "b"; only_link "a"; only_link "c"] 2 = Ok out
    ∧ out = take 2 (first_occurrences
                      [only_link "a"; only_link "b"; only_link "a"; only_link "c"])
    ∧ out `sublist_of` [only_link "a"; only_link "b"; only_link "a"; only_link "c"]
    ∧ NoDup (link_of <$> out)
    ∧ length out ≤ min 2 (distinct_links
                            [only_link "a"; only_link "b"; only_link "a"; only_link "c"]).
Proof.
  apply (dedupeAndSelect_spec
           [only_link "a"; only_link "b"; only_link "a"; only_link "c"] 2).
  repeat constructor; by eexists.
Defined.

(** C8. [dedupeAndSelect] is idempotent: run on its own output with the
    same [topK], it returns that output unchanged (and when the first
    run raises, so does the composition). *)
Theorem dedupeAndSelect_idempotent (candidates : list search_result) (topK : nat) :
  (out ← dedupeAndSelect candidates topK; dedupeAndSelect out topK)
  = dedupeAndSelect candidates topK.
Proof.
  destruct (dedupeAndSelect candidates topK) as [out|e] eqn:Hrun; [|done].
  simpl. pose proof (dedupeAndSelect_has_link _ _ _ Hrun) as Hl.
  rewrite (dedupeAndSelect_Ok _ _ Hl) in Hrun. injection Hrun as <-.
  rewrite dedupeAndSelect_Ok.
  - rewrite first_occurrences_id by apply take_NoDup_links, first_occurrences_NoDup.
    by rewrite take_take, Nat.min_id.
  - eapply has_link_sublist; [|done].
    etrans; [apply sublist_take|apply first_occurrences_sublist].
Qed.

(** ** Computations that return *)

Section Returns.
Context {W : Type}.
Implicit Types (w : W).

(** A bind, run in a world. *)
Lemma bind_at {A B} (m : M W A) (f : A → M W B) w :
  (m ≫= f) w
  = match m w with
    | (Ok a, w') => f a w'
    | (Raise e, w') => (Raise e, w')
    end.
Proof. done. Qed.

Lemma returns_elim {A} (m : M W A) w (Q : A → W → Prop) :
  returns m w Q → ∃ a w', m w = (Ok a, w') ∧ Q a w'.
Proof.
  unfold returns. destruct (m w) as [[a|e] w']; [eauto|done].
Qed.

Lemma returns_intro {A} (m : M W A) w (Q : A → W → Prop) a w' :
  m w = (Ok a, w') → Q a w' → returns m w Q.
Proof. unfold returns. by intros ->. Qed.

Lemma returns_mono {A} (m : M W A) w (Q Q' : A → W → Prop) :
  (∀ a w', Q a w' → Q' a w') → returns m w Q → returns m w Q'.
Proof.
  unfold returns. destruct (m w) as [[a|e] w']; [auto|done].
Qed.

Lemma returns_mret {A} (a : A) w (Q : A → W → Prop) :
  Q a w → returns (mret a) w Q.
Proof. done. Qed.

Lemma returns_bind {A B} (m : M W A) (f : A → M W B) w (Q : B → W → Prop) :
  returns m w (λ a w', returns (f a) w' Q) → returns (m ≫= f) w Q.
Proof.
  unfold returns, mbind, M_bind. by destruct (m w) as [[a|e] w'].
Qed.

Lemma returns_lift {A} (r : result A) (a : A) w (Q : A → W → Prop) :
  r = Ok a → Q a w → returns (lift r) w Q.
Proof. by intros ->. Qed.

(** A handler that returns makes the whole [try] statement return. *)
Lemma returns_try_except {A} (body : M W A) handler w (Q : A → W → Prop) :
  (∀ a w', body w = (Ok a, w') → Q a w') →
  (∀ e w', body w = (Raise e, w') → returns (handler e) w' Q) →
  returns (try_except body handler) w Q.
Proof.
  intros Hok Hraise. unfold returns, try_except.
  destruct (body w) as [[a|e] w'] eqn:Hbody.
  - by apply Hok.
  - by apply Hraise.
Qed.

(** A loop whose rounds return and keep an invariant returns and keeps
    the invariant. *)
Lemma for_each_returns {A B} (Inv : B → Prop) (P : A → Prop) (step : B → A → M W B) :
  (∀ acc x w, Inv acc → P x → returns (step acc x) w (λ acc' _, Inv acc')) →
  ∀ xs acc w, Inv acc → Forall P xs →
    returns (for_each xs acc step) w (λ acc' _, Inv acc').
Proof.
  intros Hstep xs. induction xs as [|x xs IH]; intros acc w Hacc Hxs; simpl.
  - by apply returns_mret.
  - apply Forall_cons in Hxs as [Hx Hxs]. apply returns_bind.
    eapply returns_mono; [|by apply Hstep].
    intros acc' w' Hacc'. by apply IH.
Qed.

(** A loop whose rounds return and keep an invariant of the value and
    one of the world returns and keeps both. *)
Lemma for_each_returns_in {A B} (quiet : W → Prop) (Inv : B → Prop) (P : A → Prop)
  (step : B → A → M W B) :
  (∀ acc x w, quiet w → Inv acc → P x →
     returns (step acc x) w (λ acc' w', quiet w' ∧ Inv acc')) →
  ∀ xs acc w, quiet w → Inv acc → Forall P xs →
    returns (for_each xs acc step) w (λ acc' w', quiet w' ∧ Inv acc').
Proof.
  intros Hstep xs. induction xs as [|x xs IH]; intros acc w Hw Hacc Hxs; simpl.
  - by apply returns_mret.
  - apply Forall_cons in Hxs as [Hx Hxs]. apply returns_bind.
    eapply returns_mono; [|by apply Hstep].
    intros acc' w' [Hw' Hacc']. by apply IH.
Qed.

End Returns.

(** ** The stages one by one *)

Section Stages.
Context {W : Type} `{!Console W} `{!Collaborators W}.
Implicit Types (w : W) (r : search_result).

Lemma log_then_at {A} (line : list log_value) (fallback : A) w :
  log_then line fallback w
  = match py_print line w with
    | (Ok _, w') => (Ok fallback, w')
    | (Raise e, w') => (Raise e, w')
    end.
Proof. unfold log_then. rewrite bind_at. by destruct (py_print line w) as [[[]|e] w']. Qed.

(** A log line that is printed lets the handler return its fallback. *)
Lemma log_then_printed {A} (line : list log_value) (fallback : A) w :
  (py_print line w).1 = Ok () →
  log_then line fallback w = (Ok fallback, (py_print line w).2).
Proof.
  intros Hprint. rewrite log_then_at.
  by destruct (py_print line w) as [[[]|e] w'].
Qed.

Lemma log_then_quiet {A} (quiet : W → Prop) (line : list log_value) (fallback : A) w :
  console_works quiet → quiet w →
  ∃ w', log_then line fallback w = (Ok fallback, w') ∧ quiet w'.
Proof.
  intros Hconsole Hw. rewrite log_then_at.
  destruct (quiet_print quiet Hconsole line w Hw) as (w' & -> & Hw'). eauto.
Qed.

(** With the default model type, [generate_response] hands on the text
    of the model; when the call raises, it logs the exception and
    gives [None]. *)
Lemma generate_response_openai (prompt : pystr) w :
  generate_response prompt "openai" w
  = match openai_chat prompt w with
    | (Ok reply, w1) => (Ok reply, w1)
    | (Raise e, w1) => log_then (response_error_line "openai" e) None w1
    end.
Proof.
  unfold generate_response, try_except. rewrite decide_True by done.
  by destruct (openai_chat prompt w) as [[reply|e] w'].
Qed.


Lemma perform_search_outcome (query : pystr) (num_results : nat) w :
  perform_search query num_results w
  = match ddgs_text query num_results w with
    | ((items, None), w1) => (Ok (to_search_result <$> items), w1)
    | ((_, Some e), w1) => log_then (search_error_line query e) [] w1
    end.
Proof.
  unfold perform_search, try_except. rewrite bind_at. unfold iterate_ddgs.
  by destruct (ddgs_text query num_results w) as [[items [e|]] w'].
Qed.

Lemma to_search_result_has_link (d : ddg_result) : has_link (to_search_result d).
Proof.
  unfold has_link, to_search_result.
  rewrite lookup_insert_ne by (intros [=]). rewrite lookup_insert_eq. by eexists.
Qed.

Lemma perform_search_quiet (quiet : W → Prop) (query : pystr) (num_results : nat) w :
  console_works quiet → quiet w →
  returns (perform_search query num_results) w
          (λ results w', quiet w' ∧ Forall has_link results).
Proof.
  intros Hconsole Hw. unfold returns. rewrite perform_search_outcome.
  pose proof (quiet_ddgs quiet Hconsole query num_results w Hw) as Hw1.
  destruct (ddgs_text query num_results w) as [[items [e|]] w1]; simpl in *.
  - destruct (log_then_quiet quiet (search_error_line query e) ([] : list search_result)
                w1 Hconsole Hw1) as (w' & -> & Hw').
    split; [done|constructor].
  - split; [done|].
    apply Forall_fmap, Forall_true. intros d. apply to_search_result_has_link.
Qed.

(** The text [scrape_content] returns when nothing raises. *)
Lemma scrape_content_scraped (url : option pystr) w response extracted :
  (requests_get url 5 w).1 = Ok response →
  raise_for_status response = Ok () →
  soup_get_text (text response) = Ok extracted →
  scrape_content url w
  = (Ok (take 2000 (PyStr.join (py " ") (PyStr.split_ws extracted))),
     (requests_get url 5 w).2).
Proof.
  intros Hget Hstatus Hsoup. unfold scrape_content, try_except.
  rewrite bind_at. destruct (requests_get url 5 w) as [fetched w1].
  simpl in Hget. subst fetched.
  rewrite bind_at. unfold lift at 1. rewrite Hstatus, bind_at. unfold lift.
  by rewrite Hsoup.
Qed.

(** What [scrape_content] does with the exception its [try] catches. *)
Lemma scrape_content_caught (url : option pystr) w :
  match scrape_exception url w with
  | (Some e, w1) => scrape_content url w = log_then (scrape_error_line url e) [] w1
  | (None, w1) =>
      ∃ response extracted,
        (requests_get url 5 w).1 = Ok response
        ∧ raise_for_status response = Ok ()
        ∧ soup_get_text (text response) = Ok extracted
        ∧ w1 = (requests_get url 5 w).2
  end.
Proof.
  unfold scrape_exception, scrape_content, try_except.
  rewrite bind_at. destruct (requests_get url 5 w) as [[response|e] w1]; [|done].
  rewrite bind_at. unfold lift at 1.
  destruct (raise_for_status response) as [[]|e] eqn:Hstatus; [|done].
  rewrite bind_at. unfold lift.
  destruct (soup_get_text (text response)) as [extracted|e] eqn:Hsoup; [|done].
  by exists response, extracted.
Qed.

Lemma scrape_exception_failed (url : option pystr) w :
  scrape_failed url w ↔ ∃ e, (scrape_exception url w).1 = Some e.
Proof.
  unfold scrape_failed, scrape_exception.
  destruct (requests_get url 5 w) as [[response|e] w1]; simpl;
    [|split; [by eexists|done]].
  destruct (raise_for_status response) as [[]|e]; simpl;
    [|split; [by eexists|done]].
  destruct (soup_get_text (text response)) as [extracted|e]; simpl;
    [|split; [by eexists|done]].
  split; [done|]. by intros [e [=]].
Qed.

Lemma scrape_exception_world (url : option pystr) w :
  (scrape_exception url w).2 = (requests_get url 5 w).2.
Proof.
  unfold scrape_exception.
  destruct (requests_get url 5 w) as [[response|e] w1]; [|done].
  destruct (raise_for_status response) as [[]|e]; [|done].
  by destruct (soup_get_text (text response)).
Qed.

Lemma scrape_content_quiet (quiet : W → Prop) (url : option pystr) w :
  console_works quiet → quiet w →
  returns (scrape_content url) w (λ content w', quiet w' ∧ length content ≤ 2000).
Proof.
  intros Hconsole Hw. unfold returns.
  pose proof (quiet_get quiet Hconsole url 5 w Hw) as Hw1.
  rewrite <- scrape_exception_world in Hw1.
  pose proof (scrape_content_caught url w) as Hcaught.
  destruct (scrape_exception url w) as [[e|] w1]; simpl in Hw1.
  - rewrite Hcaught.
    destruct (log_then_quiet quiet (scrape_error_line url e) ([] : pystr) w1 Hconsole Hw1)
      as (w' & -> & Hw'). split; [done|simpl; lia].
  - destruct Hcaught as (response & extracted & Hget & Hstatus & Hsoup & ->).
    rewrite (scrape_content_scraped url w response extracted Hget Hstatus Hsoup).
    split; [done|]. rewrite length_take. lia.
Qed.

End Stages.

Section StageClaims.
Context {W : Type} `{!Console W} `{!Collaborators W}.
Implicit Types (w : W) (r : search_result).

(** C4, amended. For every URL and every world, when the fetch or the
    extraction fails (the request raises on a timeout or a DNS failure,
    the status is a client or server error, the parser raises), the
    exception is caught and logged; when that log line is printed,
    [scrape_content] returns and does not raise, and what it returns
    for a failure is the empty string. *)
Theorem scrape_content_never_raises (url : option pystr) w :
  scrape_log_printed url w →
  ∃ content w',
    scrape_content url w = (Ok content, w')
    ∧ (scrape_failed url w → content = []).
Proof.
  intros Hprinted. unfold scrape_log_printed in Hprinted.
  pose proof (scrape_content_caught url w) as Hcaught.
  pose proof (scrape_exception_failed url w) as Hfailed.
  destruct (scrape_exception url w) as [[e|] w1].
  - rewrite Hcaught, (log_then_printed _ _ _ Hprinted). by eexists _, _.
  - destruct Hcaught as (response & extracted & Hget & Hstatus & Hsoup & _).
    rewrite (scrape_content_scraped url w response extracted Hget Hstatus Hsoup).
    eexists _, _. split; [done|]. by intros [e [=]]%Hfailed.
Qed.

(** C5. For every URL and every outcome of the fetch, a string that
    [scrape_content] returns has at most 2000 characters. It returns
    one unless a failure was caught and the [print] of its log line
    raised; when fetch and extraction succeed, what it returns is the
    extracted text with its whitespace runs collapsed to single spaces,
    cut to its first 2000 characters. *)
Theorem scrape_content_length (url : option pystr) w :
  match (scrape_content url w).1 with
  | Ok content => length content ≤ 2000
  | Raise _ => scrape_failed url w ∧ ¬ scrape_log_printed url w
  end
  ∧ (∀ response extracted,
       (requests_get url 5 w).1 = Ok response →
       raise_for_status response = Ok () →
       soup_get_text (text response) = Ok extracted →
       scrape_content url w
       = (Ok (take 2000 (PyStr.join (py " ") (PyStr.split_ws extracted))),
          (requests_get url 5 w).2)).
Proof.
  split; [|apply scrape_content_scraped].
  pose proof (scrape_content_caught url w) as Hcaught.
  pose proof (scrape_exception_failed url w) as Hfailed.
  unfold scrape_log_printed.
  destruct (scrape_exception url w) as [[e|] w1].
  - rewrite Hcaught, log_then_at.
    destruct (py_print (scrape_error_line url e) w1) as [[[]|e'] w2]; simpl; [lia|].
    split; [apply Hfailed; by eexists|done].
  - destruct Hcaught as (response & extracted & Hget & Hstatus & Hsoup & _).
    rewrite (scrape_content_scraped url w response extracted Hget Hstatus Hsoup).
    simpl. rewrite length_take. lia.
Qed.

(** C6, amended. For every sub-query and every world, when the
    provider call fails (it raises, at the call or while its results
    are read) the exception is caught and logged; when that log line is
    printed, [perform_search] returns and does not raise, and what it
    returns for a failure or for an empty response is the empty list. *)
Theorem perform_search_failure_empty (query : pystr) (num_results : nat) w :
  search_log_printed query num_results w →
  ∃ results w',
    perform_search query num_results w = (Ok results, w')
    ∧ (search_failed query num_results w → results = []).
Proof.
  rewrite perform_search_outcome. unfold search_log_printed, search_failed.
  destruct (ddgs_text query num_results w) as [[items [e|]] w1]; simpl.
  - intros Hprinted. rewrite (log_then_printed _ _ _ Hprinted). by eexists _, _.
  - intros _. eexists _, _. split; [done|]. by destruct items.
Qed.

(** C9. A provider result without [href] becomes a search result whose
    [link] is [None], and the deduplication treats [None] as any other
    key: of all the results without a link only the first is kept,
    whatever their titles and descriptions. *)
Theorem linkless_results_collapse :
  (∀ d : ddg_result, d !! "href" = None → link_of (to_search_result d) = Some None)
  ∧ (∀ query num_results w items,
       (ddgs_text query num_results w).1 = (items, None) →
       (perform_search query num_results w).1 = Ok (to_search_result <$> items))
  ∧ (∀ candidates : list search_result,
       Forall has_link candidates →
       ∃ unique,
         dedupe_by_link candidates = Ok unique
         ∧ filter (λ r, link_of r = Some None) unique
           = take 1 (filter (λ r, link_of r = Some None) candidates)).
Proof.
  split_and!.
  - intros d Hd. unfold link_of, to_search_result.
    rewrite lookup_insert_ne by (intros [=]). by rewrite lookup_insert_eq, Hd.
  - intros query num_results w items Hitems.
    rewrite perform_search_outcome.
    destruct (ddgs_text query num_results w) as [found w1]. simpl in Hitems.
    by subst found.
  - intros candidates Hl. exists (first_occurrences candidates). split.
    + by apply dedupe_by_link_first_occurrences.
    + rewrite first_occurrences_firsts, firsts_after_filter.
      rewrite decide_False; [done|]. by intros ?%elem_of_nil.
Qed.

End StageClaims.

(** ** Python string operations *)

Section PyStrFacts.
Implicit Types (p : N → bool) (s piece : pystr) (c sep : N).

Lemma lstrip_by_all p s : Forall (λ c, p c = true) s → PyStr.lstrip_by p s = [].
Proof.
  induction 1 as [|c s Hc _ IH]; simpl; [done|]. by rewrite Hc.
Qed.

Lemma strip_by_all p s : Forall (λ c, p c = true) s → PyStr.strip_by p s = [].
Proof.
  intros Hs. unfold PyStr.strip_by, PyStr.rstrip_by.
  by rewrite (lstrip_by_all p s Hs).
Qed.

(** What [lstrip_by] removes is a prefix of characters to strip, and
    what it leaves does not start with one. *)
Lemma lstrip_by_spec p s :
  ∃ pre, s = pre ++ PyStr.lstrip_by p s
         ∧ Forall (λ c, p c = true) pre
         ∧ (∀ c, head (PyStr.lstrip_by p s) = Some c → p c = false).
Proof.
  induction s as [|c s (pre & Heq & Hpre & Hhead)]; simpl.
  - exists []. split_and!; [done|constructor|done].
  - destruct (p c) eqn:Hc.
    + exists (c :: pre). split_and!; [by rewrite Heq at 1|by constructor|done].
    + exists []. split_and!; [done|constructor|]. by intros ? [= <-].
Qed.

(** [strip_by] removes a prefix and a suffix of characters to strip;
    what it leaves neither starts nor ends with one. *)
Lemma strip_by_spec p s :
  ∃ pre suf, s = pre ++ PyStr.strip_by p s ++ suf
             ∧ Forall (λ c, p c = true) pre
             ∧ Forall (λ c, p c = true) suf
             ∧ (∀ c, head (PyStr.strip_by p s) = Some c → p c = false)
             ∧ (∀ c, last (PyStr.strip_by p s) = Some c → p c = false).
Proof.
  destruct (lstrip_by_spec p s) as (pre & Hs & Hpre & Hhead).
  unfold PyStr.strip_by, PyStr.rstrip_by.
  set (t := PyStr.lstrip_by p s) in *.
  destruct (lstrip_by_spec p (reverse t)) as (fus & Ht & Hfus & Hlast).
  set (u := PyStr.lstrip_by p (reverse t)) in *.
  assert (t = reverse u ++ reverse fus) as Ht'.
  { by rewrite <- reverse_app, <- Ht, reverse_involutive. }
  exists pre, (reverse fus). split_and!.
  - by rewrite <- Ht'.
  - done.
  - by apply Forall_reverse.
  - intros c Hc. apply Hhead. rewrite Ht'.
    destruct (reverse u); [done|]. done.
  - intros c Hc. apply Hlast. by rewrite last_reverse in Hc.
Qed.

Lemma split_at_not_nil p s : PyStr.split_at p s ≠ [].
Proof.
  destruct s as [|c s]; simpl; [done|].
  destruct (p c); [done|]. by destruct (PyStr.split_at p s).
Qed.

(** The pieces of [s.split(sep)], joined with [sep], give [s] back. *)
Lemma split_join sep s : PyStr.join [sep] (PyStr.split sep s) = s.
Proof.
  unfold PyStr.split. induction s as [|c s IH]; simpl; [done|].
  pose proof (split_at_not_nil (λ c, (c =? sep)%N) s) as Hne.
  destruct (N.eqb_spec c sep) as [->|Hc].
  - destruct (PyStr.split_at _ s) as [|piece pieces]; [done|].
    by rewrite <- IH.
  - destruct (PyStr.split_at _ s) as [|piece pieces]; [done|].
    rewrite <- IH. by destruct pieces.
Qed.

(** No piece of [s.split(sep)] contains [sep]. *)
Lemma split_no_sep sep s : Forall (λ piece, sep ∉ piece) (PyStr.split sep s).
Proof.
  unfold PyStr.split. induction s as [|c s IH]; simpl.
  - constructor; [by intros ?%elem_of_nil|constructor].
  - destruct (N.eqb_spec c sep) as [->|Hc].
    + constructor; [by intros ?%elem_of_nil|done].
    + destruct (PyStr.split_at _ s) as [|piece pieces].
      * constructor; [|constructor]. by intros ->%list_elem_of_singleton.
      * apply Forall_cons in IH as [Hpiece Hpieces]. constructor; [|done].
        intros [->|?]%elem_of_cons; done.
Qed.

(** No piece of [split_at] contains a character to cut at. *)
Lemma split_at_pieces p s :
  Forall (Forall (λ c, p c = false)) (PyStr.split_at p s).
Proof.
  induction s as [|c s IH]; simpl.
  - by repeat constructor.
  - destruct (p c) eqn:Hc.
    + by constructor.
    + destruct (PyStr.split_at p s) as [|piece pieces].
      * by repeat constructor.
      * apply Forall_cons in IH as [Hpiece Hpieces].
        constructor; [by constructor|done].
Qed.

(** The words of [s.split()] are non-empty and free of whitespace, so
    joining them with one space leaves single spaces only. *)
Lemma split_ws_words s :
  Forall (λ word, word ≠ [] ∧ Forall (λ c, PyStr.isspace c = false) word)
         (PyStr.split_ws s).
Proof.
  unfold PyStr.split_ws. apply Forall_forall. intros word Hword.
  apply list_elem_of_In, filter_In in Hword as [Hin Htruthy].
  split; [by destruct word|].
  pose proof (split_at_pieces PyStr.isspace s) as Hpieces.
  rewrite Forall_forall in Hpieces. by apply Hpieces, list_elem_of_In.
Qed.

Example isspace_ex :
  PyStr.isspace <$> [9; 10; 13; 32; 34; 97; 160; 8195; 12288; 8203]%N
  = [true; true; true; true; false; false; true; true; true; false].
Proof. reflexivity. Qed.

Example strip_ex : PyStr.strip (py "  a b  ") = py "a b".
Proof. reflexivity. Qed.

Example strip_chars_ex :
  PyStr.strip_chars [PyStr.dquote]
    ([PyStr.dquote; PyStr.dquote] ++ py " a " ++ [PyStr.dquote])
  = py " a ".
Proof. reflexivity. Qed.

Example split_ex :
  PyStr.split PyStr.nl (PyStr.nl :: py "x" ++ PyStr.nl :: py "y z")
  = [[]; py "x"; py "y z"].
Proof. reflexivity. Qed.

Example split_ws_join_ex :
  PyStr.join (py " ") (PyStr.split_ws (py " a   b" ++ [PyStr.nl] ++ py "c "))
  = py "a b c".
Proof. reflexivity. Qed.

End PyStrFacts.

(** ** Decomposition *)

Section Parse.
Implicit Types (response line q : pystr).

Lemma parse_queries_elem response line :
  line ∈ PyStr.split PyStr.nl response →
  PyStr.strip line ≠ [] →
  PyStr.strip_chars [PyStr.dquote] (PyStr.strip line) ∈ parse_queries response.
Proof.
  intros Hline Hne. unfold parse_queries. apply list_elem_of_fmap.
  exists line. split; [done|]. apply list_elem_of_In, filter_In.
  split; [by apply list_elem_of_In|]. by destruct (PyStr.strip line).
Qed.

Lemma strip_chars_quotes_only line :
  quotes_only line → PyStr.strip_chars [PyStr.dquote] (PyStr.strip line) = [].
Proof.
  intros [_ Hall]. apply strip_by_all. eapply Forall_impl; [done|].
  intros c ->. by apply bool_decide_eq_true, list_elem_of_singleton.
Qed.



End Parse.

Section DescribedParse.
Implicit Types (response line q : pystr).





End DescribedParse.

Section Decompose.
Context {W : Type} `{!Console W} `{!Collaborators W}.
Implicit Types (w : W) (user_query response : pystr).

Lemma decompose_query_outcome user_query w :
  decompose_query user_query w
  = match openai_chat (decompose_prompt user_query) w with
    | (Ok reply, w1) =>
        (Ok (match reply with
             | Some response =>
                 if PyStr.truthy response
                 then match parse_queries response with
                      | [] => [user_query]
                      | _ :: _ => parse_queries response
                      end
                 else [user_query]
             | None => [user_query]
             end), w1)
    | (Raise e, w1) => log_then (response_error_line "openai" e) [user_query] w1
    end.
Proof.
  unfold decompose_query. rewrite bind_at, generate_response_openai.
  destruct (openai_chat (decompose_prompt user_query) w) as [[[response|]|e] w1].
  - by destruct (PyStr.truthy response).
  - done.
  - rewrite !log_then_at.
    by destruct (py_print (response_error_line "openai" e) w1) as [[[]|e'] w2].
Qed.

(** The outcome when the model call returns. *)
Lemma decompose_query_replied user_query w reply :
  (openai_chat (decompose_prompt user_query) w).1 = Ok reply →
  decompose_query user_query w
  = (Ok (match reply with
         | Some response =>
             if PyStr.truthy response
             then match parse_queries response with
                  | [] => [user_query]
                  | _ :: _ => parse_queries response
                  end
             else [user_query]
         | None => [user_query]
         end),
     (openai_chat (decompose_prompt user_query) w).2).
Proof.
  intros Hreply. rewrite decompose_query_outcome.
  destruct (openai_chat (decompose_prompt user_query) w) as [called w1].
  simpl in Hreply. by subst called.
Qed.

(** C3, amended. For every query and every world, when the model call
    raises, the exception is caught and logged; when that log line is
    printed, [decompose_query] returns a non-empty list of sub-queries,
    and when the model call fails or gives no response, or the list
    parsed from its text is empty, the result is the one-element list
    of the original query. *)
Theorem decompose_query_nonempty user_query w :
  model_log_printed (decompose_prompt user_query) w →
  ∃ sub_queries w',
    decompose_query user_query w = (Ok sub_queries, w')
    ∧ sub_queries ≠ []
    ∧ (no_usable_reply (openai_chat (decompose_prompt user_query) w).1 →
       sub_queries = [user_query]).
Proof.
  rewrite decompose_query_outcome. unfold model_log_printed.
  destruct (openai_chat (decompose_prompt user_query) w) as [[[response|]|e] w1];
    simpl.
  - intros _. eexists _, _. split; [done|].
    destruct (PyStr.truthy response); [|done].
    destruct (parse_queries response) eqn:Hparse; [done|].
    split; [done|]. by intros [=].
  - intros _. by eexists _, _.
  - intros Hprinted. rewrite (log_then_printed _ _ _ Hprinted). by eexists _, _.
Qed.


(** C10. A line of the response that consists of double quotes only
    passes the emptiness test, made before the quotes are stripped, and
    leaves the empty string among the sub-queries returned. *)
Theorem decompose_query_empty_sub_query user_query response line w :
  (openai_chat (decompose_prompt user_query) w).1 = Ok (Some response) →
  line ∈ PyStr.split PyStr.nl response →
  quotes_only line →
  ∃ sub_queries w',
    decompose_query user_query w = (Ok sub_queries, w') ∧ [] ∈ sub_queries.
Proof.
  intros Hreply Hline Hquotes.
  rewrite (decompose_query_replied user_query w _ Hreply). eexists _, _. split; [done|].
  pose proof (parse_queries_elem response line Hline (proj1 Hquotes)) as Hin.
  rewrite (strip_chars_quotes_only line Hquotes) in Hin.
  destruct response as [|c response].
  { apply list_elem_of_singleton in Hline as ->. by destruct Hquotes. }
  simpl. by destruct (parse_queries (c :: response)); [apply elem_of_nil in Hin|].
Qed.

End Decompose.

(** ** Loops that append *)

Section Append.
Context {W : Type}.
Implicit Types (w : W).

Lemma for_each_app {A B} (xs ys : list A) (acc : B) (step : B → A → M W B) w :
  for_each (xs ++ ys) acc step w
  = (acc' ← for_each xs acc step; for_each ys acc' step) w.
Proof.
  revert acc w. induction xs as [|x xs IH]; intros acc w; [done|].
  cbn [app for_each]. rewrite !bind_at.
  destruct (step acc x w) as [[acc'|e] w']; [|done].
  rewrite IH. done.
Qed.

(** A loop whose rounds only append to the accumulator gives the
    accumulator followed by what it gives from the empty list. *)
Lemma for_each_append {A B} (f : A → M W (list B)) (step : list B → A → M W (list B)) :
  (∀ acc x w, step acc x w = (r ← f x; mret (acc ++ r)) w) →
  ∀ (xs : list A) (acc : list B) w,
    for_each xs acc step w
    = (found ← for_each xs [] step; mret (acc ++ found)) w.
Proof.
  intros Hstep xs. induction xs as [|x xs IH]; intros acc w.
  - rewrite bind_at. simpl. unfold mret, M_ret. by rewrite app_nil_r.
  - cbn [for_each]. rewrite !bind_at, !Hstep, !bind_at.
    destruct (f x w) as [[r|e] w1]; [|done].
    unfold mret at 1 2, M_ret. rewrite (IH (acc ++ r)), (IH ([] ++ r)), !bind_at.
    destruct (for_each xs [] step w1) as [[found|e] w2]; [|done].
    unfold mret, M_ret. by rewrite app_assoc.
Qed.

End Append.

(** ** The orchestrator *)

Section Orchestrator.
Context {W : Type} `{!Console W} `{!Collaborators W}.
Implicit Types (w : W) (r res : search_result) (user_query : pystr).

(** [web_search_task] is its first three stages followed by the
    synthesis. *)
Lemma web_search_task_stages user_query w :
  web_search_task user_query w
  = (final_results ← enriched_results user_query;
     get_relevant_answer user_query final_results) w.
Proof.
  unfold web_search_task, enriched_results. rewrite !bind_at.
  destruct (decompose_query user_query w) as [[sub_queries|e] w1]; [|done].
  rewrite !bind_at.
  destruct (py_print _ w1) as [[[]|e] w1']; [|done].
  rewrite !bind_at.
  destruct (for_each sub_queries [] search_step w1') as [[all_results|e] w2]; [|done].
  rewrite !bind_at.
  by destruct (lift (dedupeAndSelect all_results 3) w2) as [[selected|e] w3].
Qed.

(** [enriched_results] is the gathering of the candidates followed by
    the selection and the scraping. *)
Lemma enriched_results_gathered user_query w :
  enriched_results user_query w
  = (all_results ← gathered_candidates user_query;
     selected ← lift (dedupeAndSelect all_results 3);
     for_each selected [] scrape_step) w.
Proof.
  unfold enriched_results, gathered_candidates. rewrite !bind_at.
  destruct (decompose_query user_query w) as [[sub_queries|e] w1]; [|done].
  rewrite !bind_at.
  destruct (py_print _ w1) as [[[]|e] w1']; [|done].
  rewrite !bind_at.
  by destruct (for_each sub_queries [] search_step w1') as [[all_results|e] w2].
Qed.

Lemma search_step_appends (acc : list search_result) (q : pystr) w :
  search_step acc q w
  = (found ← (_ ← py_print [LogText (py "Searching for: "); LogText q];
              perform_search q 2);
     mret (acc ++ found)) w.
Proof.
  unfold search_step. rewrite !bind_at.
  destruct (py_print _ w) as [[[]|e] w1]; [|done].
  by rewrite bind_at.
Qed.

Lemma search_all_from (sub_queries : list pystr) (acc : list search_result) w :
  for_each sub_queries acc search_step w
  = (found ← search_all sub_queries; mret (acc ++ found)) w.
Proof.
  apply (for_each_append
           (λ q, _ ← py_print [LogText (py "Searching for: "); LogText q];
                 perform_search q 2)).
  apply search_step_appends.
Qed.

Lemma print_quiet (quiet : W → Prop) (line : list log_value) w :
  console_works quiet → quiet w →
  returns (py_print line) w (λ _ w', quiet w').
Proof.
  intros Hconsole Hw. unfold returns.
  by destruct (quiet_print quiet Hconsole line w Hw) as (w' & -> & Hw').
Qed.

Lemma decompose_query_quiet (quiet : W → Prop) user_query w :
  console_works quiet → quiet w →
  returns (decompose_query user_query) w (λ _ w', quiet w').
Proof.
  intros Hconsole Hw. unfold returns. rewrite decompose_query_outcome.
  pose proof (quiet_openai quiet Hconsole (decompose_prompt user_query) w Hw) as Hw1.
  destruct (openai_chat (decompose_prompt user_query) w) as [[reply|e] w1];
    simpl in *; [done|].
  by destruct (log_then_quiet quiet (response_error_line "openai" e) [user_query]
                 w1 Hconsole Hw1) as (w' & -> & Hw').
Qed.

Lemma search_all_quiet (quiet : W → Prop) (sub_queries : list pystr) w :
  console_works quiet → quiet w →
  returns (search_all sub_queries) w
          (λ all_results w', quiet w' ∧ Forall has_link all_results).
Proof.
  intros Hconsole Hw. unfold search_all.
  apply (for_each_returns_in quiet (Forall has_link) (λ _, True));
    [|done|constructor|by apply Forall_true].
  intros acc q w1 Hw1 Hacc _. unfold search_step. apply returns_bind.
  eapply returns_mono; [|by apply print_quiet].
  intros printed w2 Hw2. apply returns_bind.
  eapply returns_mono; [|by apply perform_search_quiet].
  intros results w3 [Hw3 Hresults]. apply returns_mret. split; [done|].
  by apply Forall_app.
Qed.

Lemma scrape_step_enriches (quiet : W → Prop)
  (final_results : list search_result) res w :
  console_works quiet → quiet w → has_link res →
  ∃ enriched w',
    scrape_step final_results res w = (Ok (final_results ++ [enriched]), w')
    ∧ quiet w' ∧ enriched_from res enriched.
Proof.
  intros Hconsole Hw Hres. unfold scrape_step.
  destruct (getitem_has_link res Hres) as (link & Hget & _).
  rewrite bind_at. unfold lift at 1. rewrite Hget, bind_at.
  destruct (quiet_print quiet Hconsole
              [LogText (py "Scraping: "); LogValue link] w Hw) as (w1 & -> & Hw1).
  rewrite bind_at. unfold lift at 1. rewrite bind_at.
  destruct (returns_elim _ _ _ (scrape_content_quiet quiet link w1 Hconsole Hw1))
    as (content & w2 & -> & Hw2 & Hlen).
  exists (<["content" := Some content]> res), w2. split; [done|].
  split; [done|]. by exists content.
Qed.

Lemma scrape_loop_from (quiet : W → Prop) (selected : list search_result) :
  console_works quiet → Forall has_link selected →
  ∀ (acc : list search_result) w, quiet w →
    ∃ enriched w',
      for_each selected acc scrape_step w = (Ok (acc ++ enriched), w')
      ∧ quiet w' ∧ Forall2 enriched_from selected enriched.
Proof.
  intros Hconsole. induction 1 as [|res selected Hres _ IH]; intros acc w Hw.
  - exists [], w. split; [simpl; by rewrite app_nil_r|]. split; [done|constructor].
  - cbn [for_each]. rewrite bind_at.
    destruct (scrape_step_enriches quiet acc res w Hconsole Hw Hres)
      as (first & w1 & -> & Hw1 & Hfirst).
    destruct (IH (acc ++ [first]) w1 Hw1) as (enriched & w' & -> & Hw' & Henriched).
    exists (first :: enriched), w'. split; [by rewrite <- app_assoc|].
    split; [done|by constructor].
Qed.

(** The stages of [enriched_results], one after the other, in worlds
    where the console works. *)
Lemma enriched_results_stages (quiet : W → Prop) user_query w :
  console_works quiet → quiet w →
  ∃ all_results w2 enriched w3,
    gathered_candidates user_query w = (Ok all_results, w2)
    ∧ Forall has_link all_results
    ∧ for_each (take 3 (first_occurrences all_results)) [] scrape_step w2
      = (Ok enriched, w3)
    ∧ Forall2 enriched_from (take 3 (first_occurrences all_results)) enriched
    ∧ enriched_results user_query w = (Ok enriched, w3)
    ∧ quiet w3.
Proof.
  intros Hconsole Hw.
  assert (returns (gathered_candidates user_query) w
            (λ all_results w2, quiet w2 ∧ Forall has_link all_results)) as Hgather.
  { unfold gathered_candidates. apply returns_bind.
    eapply returns_mono; [|by apply decompose_query_quiet].
    intros sub_queries w1 Hw1. apply returns_bind.
    eapply returns_mono; [|by apply print_quiet].
    intros printed w1' Hw1'. by apply search_all_quiet. }
  apply returns_elim in Hgather as (all_results & w2 & Hgather & Hw2 & Hlinks).
  assert (Forall has_link (take 3 (first_occurrences all_results))) as Hsel.
  { eapply has_link_sublist; [|done].
    etrans; [apply sublist_take|apply first_occurrences_sublist]. }
  destruct (scrape_loop_from quiet _ Hconsole Hsel [] w2 Hw2)
    as (enriched & w3 & Hscrape & Hw3 & Henriched).
  exists all_results, w2, enriched, w3. split_and!; [done..| |done].
  rewrite enriched_results_gathered, bind_at, Hgather, bind_at. unfold lift at 1.
  by rewrite (dedupeAndSelect_Ok all_results 3 Hlinks).
Qed.

Lemma enriched_from_link res enriched :
  enriched_from res enriched → link_of enriched = link_of res.
Proof.
  intros (content & -> & _). unfold link_of.
  by rewrite lookup_insert_ne by (intros [=]).
Qed.

Lemma enriched_from_links (selected enriched : list search_result) :
  Forall2 enriched_from selected enriched →
  link_of <$> enriched = link_of <$> selected.
Proof.
  induction 1 as [|res e selected enriched He _ IH]; [done|].
  rewrite !fmap_cons. by rewrite IH, (enriched_from_link res e He).
Qed.

Lemma enriched_from_keys (selected enriched : list search_result) :
  Forall2 enriched_from selected enriched →
  Forall has_link selected →
  Forall (λ r, has_link r
               ∧ ∃ content : pystr,
                   r !! "content" = Some (Some content) ∧ length content ≤ 2000)
         enriched.
Proof.
  induction 1 as [|res e sel enr He _ IH]; intros Hsel; [constructor|].
  apply Forall_cons in Hsel as [Hres Hsel]. constructor; [|by apply IH].
  destruct He as (content & -> & Hlen). split.
  - unfold has_link. by rewrite lookup_insert_ne by (intros [=]).
  - exists content. by rewrite lookup_insert_eq.
Qed.

Lemma context_step_returns (context : pystr) res :
  has_link res → ∃ context', context_step context res = Ok context'.
Proof.
  intros Hres. destruct (getitem_has_link res Hres) as (link & Hget & _).
  unfold context_step. rewrite Hget. by eexists.
Qed.



End Orchestrator.

(** ** The claims at concrete inputs *)

(** In the scripted worlds whose console script holds no failure, the
    console works. *)
Lemma scripted_console_works : console_works console_quiet.
Proof.
  split.
  - intros line w Hw. unfold console_quiet in *. simpl. unfold script_print.
    destruct (console_script w) as [|outcome rest] eqn:Hscript.
    + exists w. split; [done|]. by rewrite Hscript.
    + apply Forall_cons in Hw as [-> Hrest]. eexists. split; [done|]. done.
  - intros prompt w Hw. unfold console_quiet in *. simpl. unfold script_llm.
    by destruct (llm_script w).
  - intros query num_results w Hw. unfold console_quiet in *. simpl.
    unfold script_search. by destruct (search_script w).
  - intros url timeout w Hw. unfold console_quiet in *. simpl. unfold script_get.
    destruct url; [|done]. by destruct (fetch_script w).
Qed.



Lemma decompose_query_nonempty_witness :
  model_log_printed (decompose_prompt (py "best hiking trails")) only_synthesis_works
  ∧ ∃ sub_queries w',
      decompose_query (py "best hiking trails") only_synthesis_works
      = (Ok sub_queries, w')
      ∧ sub_queries ≠ []
      ∧ (no_usable_reply
           (openai_chat (decompose_prompt (py "best hiking trails"))
              only_synthesis_works).1 →
         sub_queries = [py "best hiking trails"]).
Proof.
  split; [reflexivity|].
  apply (decompose_query_nonempty (py "best hiking trails") only_synthesis_works).
  reflexivity.
Defined.

(** C3 as stated fails when the model call raises and the console
    rejects the log line of the handler: the [print] raises out of
    [generate_response], and [decompose_query] returns no list. *)
Lemma decompose_query_console_rejects :
  (openai_chat (decompose_prompt (py "best hiking trails")) console_down).1
  = Raise (LibraryError "APIConnectionError" [])
  ∧ (decompose_query (py "best hiking trails") console_down).1
    = Raise (LibraryError "UnicodeEncodeError" []).
Proof. split; reflexivity. Qed.

Lemma scrape_content_never_raises_witness :
  scrape_log_printed (Some (py "https://a.example")) console_breaks
  ∧ ∃ content w',
      scrape_content (Some (py "https://a.example")) console_breaks = (Ok content, w')
      ∧ (scrape_failed (Some (py "https://a.example")) console_breaks → content = []).
Proof.
  split; [reflexivity|].
  apply (scrape_content_never_raises (Some (py "https://a.example")) console_breaks).
  reflexivity.
Defined.

(** C4 as stated fails twice. A response with status 302, which is not
    a 2xx status, is no failure for the status check, and its body is
    scraped; and when the fetch raises and the console rejects the log
    line of the handler, the [print] raises out of [scrape_content]. *)
Lemma scrape_content_counterexample :
  (requests_get (Some (py "https://a.example")) 5 redirected).1
  = Ok {| status_code := 302; text := py "moved   here" |}
  ∧ (scrape_content (Some (py "https://a.example")) redirected).1
    = Ok (py "moved here")
  ∧ (requests_get (Some (py "https://a.example")) 5 console_down).1
    = Raise (LibraryError "ConnectionError" [])
  ∧ (scrape_content (Some (py "https://a.example")) console_down).1
    = Raise (LibraryError "UnicodeEncodeError" []).
Proof. split_and!; reflexivity. Qed.

Lemma perform_search_failure_empty_witness :
  search_log_printed (py "hiking") 2 console_breaks
  ∧ ∃ results w',
      perform_search (py "hiking") 2 console_breaks = (Ok results, w')
      ∧ (search_failed (py "hiking") 2 console_breaks → results = []).
Proof.
  split; [reflexivity|].
  apply (perform_search_failure_empty (py "hiking") 2 console_breaks).
  reflexivity.
Defined.

(** C6 as stated fails when the search raises and the console rejects
    the log line of the handler: the [print] raises out of
    [perform_search], which returns no list. *)
Lemma perform_search_console_rejects :
  search_failed (py "hiking") 2 console_down
  ∧ (perform_search (py "hiking") 2 console_down).1
    = Raise (LibraryError "UnicodeEncodeError" []).
Proof. split; [exact I|reflexivity]. Qed.



Lemma decompose_query_empty_sub_query_witness :
  (openai_chat (decompose_prompt (py "hiking")) (one_reply quoted_nothing_reply)).1
  = Ok (Some quoted_nothing_reply)
  ∧ [PyStr.dquote; PyStr.dquote] ∈ PyStr.split PyStr.nl quoted_nothing_reply
  ∧ quotes_only [PyStr.dquote; PyStr.dquote]
  ∧ ∃ sub_queries w',
      decompose_query (py "hiking") (one_reply quoted_nothing_reply) = (Ok sub_queries, w')
      ∧ [] ∈ sub_queries.
Proof.
  assert (quotes_only [PyStr.dquote; PyStr.dquote]) as Hquotes.
  { split; [done|]. by repeat constructor. }
  assert ([PyStr.dquote; PyStr.dquote] ∈ PyStr.split PyStr.nl quoted_nothing_reply)
    as Hline.
  { vm_compute. apply elem_of_cons. right. apply elem_of_cons. by left. }
  split; [reflexivity|]. split; [done|]. split; [done|].
  apply (decompose_query_empty_sub_query (py "hiking") quoted_nothing_reply
           [PyStr.dquote; PyStr.dquote] (one_reply quoted_nothing_reply));
    [reflexivity|done|done].
Defined.

(** The scenarios of the description. *)

Example dedupe_scenario :
  dedupeAndSelect [only_link "a"; only_link "b"; only_link "a"; only_link "c"] 2
  = Ok [only_link "a"; only_link "b"].
Proof. by vm_compute. Qed.

Example decompose_fails_scenario :
  (decompose_query (py "best hiking trails") only_synthesis_works).1
  = Ok [py "best hiking trails"].
Proof. reflexivity. Qed.

Example quoted_nothing_scenario :
  (decompose_query (py "hiking") (one_reply quoted_nothing_reply)).1
  = Ok [py "state park trails"; []].
Proof. reflexivity. Qed.

Example two_line_scenario :
  parse_queries two_line_reply = [py "state park trails"; py "trail maps"].
Proof. reflexivity. Qed.

(** Every stage before the synthesis fails, and the answer is still the
    one of the synthesis. *)
Example only_synthesis_scenario :
  (web_search_task (py "best hiking trails") only_synthesis_works).1
  = Ok (Some (py "no sources")).
Proof. by vm_compute. Qed.

(** The second result has no link and is kept once: its fetch has no
    URL to ask and raises. The third repeats the link of the first and
    is dropped. The fetch of the fourth times out. Both failures leave
    an empty content. *)
Example busy_scenario :
  (enriched_results (py "hiking") busy_world).1
  = Ok [ <["content" := Some (py "many trails")]>
           (to_search_result (ddg "Parks" "https://a.example" "about parks"));
         <["content" := Some []]> (to_search_result (ddg_no_href "Lost" "no address"));
         <["content" := Some []]>
           (to_search_result (ddg "Maps" "https://b.example" "about maps")) ].
Proof. by vm_compute. Qed.

(** Two results without [href] and with different titles: the second
    is dropped. *)
Example linkless_scenario :
  dedupe_by_link
    [ to_search_result (ddg_no_href "Lost" "no address");
      to_search_result (ddg "Parks" "https://a.example" "about parks");
      to_search_result (ddg_no_href "Elsewhere" "no address either") ]
  = Ok [ to_search_result (ddg_no_href "Lost" "no address");
         to_search_result (ddg "Parks" "https://a.example" "about parks") ].
Proof. by vm_compute. Qed.

(** A status of 100 or 302 is no failure for the status check; one of
    404 or 503 is. *)
Example raise_for_status_ex :
  raise_for_status {| status_code := 100; text := [] |} = Ok ()
  ∧ raise_for_status {| status_code := 302; text := [] |} = Ok ()
  ∧ raise_for_status {| status_code := 404; text := [] |}
    = Raise (LibraryError "HTTPError" [])
  ∧ raise_for_status {| status_code := 503; text := [] |}
    = Raise (LibraryError "HTTPError" []).
Proof. by split_and!. Qed.

(** * Further properties of the pipeline *)

(** ** The context handed to the model *)

Section Context.
Implicit Types (res : search_result) (l : list search_result) (context : pystr).

(** A round of the loop appends to the context and does not read it. *)
Lemma context_step_prefix context res :
  context_step context res = (block ← context_step [] res; mret (context ++ block)).
Proof.
  unfold context_step. destruct (getitem res "link") as [link|e]; [|done].
  unfold mbind, result_bind, mret, result_ret. cbv zeta.
  destruct (res !! "content") as [content|];
    rewrite ?app_nil_l, <- ?app_assoc; reflexivity.
Qed.

Lemma context_prefix l context :
  for_each_pure l context context_step
  = (blocks ← for_each_pure l [] context_step; mret (context ++ blocks)).
Proof.
  revert context. induction l as [|res l IH]; intros context.
  - simpl. by rewrite app_nil_r.
  - cbn [for_each_pure]. rewrite (context_step_prefix context res).
    destruct (context_step [] res) as [block|e]; [|done]. simpl.
    rewrite (IH (context ++ block)), (IH block).
    destruct (for_each_pure l [] context_step) as [blocks|e]; [|done].
    simpl. by rewrite app_assoc.
Qed.

(** X1. The context of a list of sources is the context of its first
    part followed by the context of the rest: every source gives a
    block of its own, in order, and a missing link in either part makes
    the whole raise. *)
Theorem context_app l1 l2 :
  for_each_pure (l1 ++ l2) [] context_step
  = (context1 ← for_each_pure l1 [] context_step;
     context2 ← for_each_pure l2 [] context_step;
     mret (context1 ++ context2)).
Proof.
  induction l1 as [|res l1 IH].
  - simpl. by destruct (for_each_pure l2 [] context_step).
  - cbn [app for_each_pure].
    destruct (context_step [] res) as [block|e]; [|done]. simpl.
    rewrite (context_prefix (l1 ++ l2) block), (context_prefix l1 block), IH.
    destruct (for_each_pure l1 [] context_step) as [context1|e]; [|done]. simpl.
    destruct (for_each_pure l2 [] context_step) as [context2|e]; [|done]. simpl.
    by rewrite app_assoc.
Qed.

Lemma context_missing_link l :
  ¬ Forall has_link l →
  ∀ context, for_each_pure l context context_step = Raise (KeyError "link").
Proof.
  induction l as [|res l IH]; intros Hl context.
  - destruct Hl. constructor.
  - cbn [for_each_pure]. destruct (res !! "link") as [link|] eqn:Hlink.
    + destruct (context_step_returns context res) as [context' ->]; [by eexists|].
      simpl. apply IH. intros Hrest. apply Hl. constructor; [by eexists|done].
    + unfold context_step, getitem. by rewrite Hlink.
Qed.

(** X3. For a result as [perform_search] builds it, the defaults of the
    context loop never apply: a provider result without title or body
    is written as [None], not as [Unknown] or the empty string, and no
    content line is written before the result is scraped. *)
Theorem context_step_unscraped (d : ddg_result) context :
  context_step context (to_search_result d)
  = Ok (context
        ++ py "Source: " ++ PyStr.format (d !! "title")
        ++ py " (" ++ PyStr.format (d !! "href") ++ py ")" ++ [PyStr.nl]
        ++ py "Description: " ++ PyStr.format (d !! "body") ++ [PyStr.nl]
        ++ py "---" ++ [PyStr.nl]).
Proof.
  unfold context_step, getitem, get_default, to_search_result.
  rewrite !lookup_insert_eq.
  rewrite !(lookup_insert_ne _ "title") by (intros [=]).
  rewrite !lookup_insert_eq.
  rewrite !(lookup_insert_ne _ "link") by (intros [=]).
  rewrite lookup_insert_eq.
  rewrite (lookup_insert_ne _ "description") by (intros [=]).
  rewrite lookup_empty.
  unfold mbind, result_bind, mret, result_ret. cbv zeta.
  rewrite <- ?app_assoc. reflexivity.
Qed.

End Context.

Section Synthesis.
Context {W : Type} `{!Console W} `{!Collaborators W}.
Implicit Types (w : W) (user_query : pystr).

(** X2. When a source has no [link] key, [get_relevant_answer] raises
    the [KeyError] of the subscript before any prompt is built: the
    model is not called and the world is left as it was. *)
Theorem get_relevant_answer_missing_link user_query (search_results : list search_result) w :
  ¬ Forall has_link search_results →
  get_relevant_answer user_query search_results w = (Raise (KeyError "link"), w).
Proof.
  intros Hl. unfold get_relevant_answer, mbind, M_bind, lift.
  by rewrite (context_missing_link _ Hl).
Qed.

End Synthesis.

Lemma get_relevant_answer_missing_link_witness :
  get_relevant_answer (py "hiking")
    [only_link "a"; {[ "title" := Some (py "no link") ]}] (one_reply (py "answer"))
  = (Raise (KeyError "link"), one_reply (py "answer")).
Proof.
  apply (get_relevant_answer_missing_link (py "hiking")
           [only_link "a"; {[ "title" := Some (py "no link") ]}]
           (one_reply (py "answer"))).
  intros Hl. apply Forall_cons in Hl as [_ Hl]. apply Forall_cons in Hl as [[v Hv] _].
  by vm_compute in Hv.
Defined.

(** ** The loops of the orchestrator *)

Section Loops.
Context {W : Type} `{!Console W} `{!Collaborators W}.
Implicit Types (w : W) (res : search_result) (user_query : pystr).

(** X4. The candidates gathered for a list of sub-queries are those of
    its first part followed by those of the rest, found in the world the
    first part leaves: the searches run in the order of the sub-queries
    and none of them reads what the others found. *)
Theorem search_all_app (sub_queries1 sub_queries2 : list pystr) w :
  search_all (sub_queries1 ++ sub_queries2) w
  = (found1 ← search_all sub_queries1;
     found2 ← search_all sub_queries2;
     mret (found1 ++ found2)) w.
Proof.
  unfold search_all at 1. rewrite for_each_app, bind_at.
  fold (search_all sub_queries1). rewrite (bind_at (search_all sub_queries1)).
  destruct (search_all sub_queries1 w) as [[found1|e] w1]; [|done].
  apply search_all_from.
Qed.

(** X5. In worlds where the console works, for selected results that
    all have a link, the scraping loop returns one enriched result per
    selected result, in the same order: each is the selected result
    with a [content] of at most 2000 characters added, its other keys
    untouched. *)
Theorem scrape_loop_enriches (quiet : W → Prop) (selected : list search_result) w :
  console_works quiet →
  quiet w →
  Forall has_link selected →
  ∃ enriched w',
    for_each selected [] scrape_step w = (Ok enriched, w')
    ∧ Forall2 enriched_from selected enriched.
Proof.
  intros Hconsole Hw Hsel.
  destruct (scrape_loop_from quiet selected Hconsole Hsel [] w Hw)
    as (enriched & w' & Hrun & _ & Henriched). eauto.
Qed.

(** X6. In worlds where the console works, whatever the model, the
    searches and the fetches do, the sources that reach the synthesis
    are at most three, their links are pairwise different, and each has
    its [link] key and a [content] of at most 2000 characters. *)
Theorem enriched_results_bounds (quiet : W → Prop) user_query w :
  console_works quiet →
  quiet w →
  ∃ enriched w',
    enriched_results user_query w = (Ok enriched, w')
    ∧ length enriched ≤ 3
    ∧ NoDup (link_of <$> enriched)
    ∧ Forall (λ r, has_link r
                   ∧ ∃ content : pystr,
                       r !! "content" = Some (Some content) ∧ length content ≤ 2000)
             enriched.
Proof.
  intros Hconsole Hw.
  destruct (enriched_results_stages quiet user_query w Hconsole Hw)
    as (all_results & w2 & enriched & w3 & _ & Hlinks & _ & Henriched & Hrun & _).
  exists enriched, w3. split; [done|]. split_and!.
  - rewrite <- (Forall2_length _ _ _ Henriched), length_take. lia.
  - rewrite (enriched_from_links _ _ Henriched).
    apply take_NoDup_links, first_occurrences_NoDup.
  - apply (enriched_from_keys _ _ Henriched).
    eapply has_link_sublist; [|done].
    etrans; [apply sublist_take|apply first_occurrences_sublist].
Qed.

(** X7. When the decomposition and the searches of a run end without a
    candidate, no source is selected and nothing more is fetched or
    logged: the world the synthesis starts in is the one the last
    search left, and the model is still asked, with a prompt whose
    context is empty. *)
Theorem web_search_task_no_sources user_query w w2 :
  gathered_candidates user_query w = (Ok [], w2) →
  enriched_results user_query w = (Ok [], w2)
  ∧ web_search_task user_query w
    = generate_response (answer_prompt user_query []) "openai" w2.
Proof.
  intros Hgather.
  assert (enriched_results user_query w = (Ok [], w2)) as Henriched.
  { by rewrite enriched_results_gathered, bind_at, Hgather. }
  split; [done|].
  by rewrite web_search_task_stages, bind_at, Henriched.
Qed.

End Loops.

Lemma scrape_loop_enriches_witness :
  ∃ enriched w',
    for_each [to_search_result (ddg "Parks" "https://a.example" "about parks");
              to_search_result (ddg_no_href "Lost" "no address")]
             [] scrape_step busy_world = (Ok enriched, w')
    ∧ Forall2 enriched_from
        [to_search_result (ddg "Parks" "https://a.example" "about parks");
         to_search_result (ddg_no_href "Lost" "no address")]
        enriched.
Proof.
  apply (scrape_loop_enriches console_quiet
           [to_search_result (ddg "Parks" "https://a.example" "about parks");
            to_search_result (ddg_no_href "Lost" "no address")] busy_world).
  - exact scripted_console_works.
  - constructor.
  - repeat constructor; apply to_search_result_has_link.
Defined.

Lemma enriched_results_bounds_witness :
  ∃ enriched w',
    enriched_results (py "hiking") busy_world = (Ok enriched, w')
    ∧ length enriched ≤ 3
    ∧ NoDup (link_of <$> enriched)
    ∧ Forall (λ r, has_link r
                   ∧ ∃ content : pystr,
                       r !! "content" = Some (Some content) ∧ length content ≤ 2000)
             enriched.
Proof.
  apply (enriched_results_bounds console_quiet (py "hiking") busy_world).
  - exact scripted_console_works.
  - constructor.
Defined.

Lemma web_search_task_no_sources_witness :
  ∃ w2,
    gathered_candidates (py "best hiking trails") only_synthesis_works = (Ok [], w2)
    ∧ enriched_results (py "best hiking trails") only_synthesis_works = (Ok [], w2)
    ∧ web_search_task (py "best hiking trails") only_synthesis_works
      = generate_response (answer_prompt (py "best hiking trails") []) "openai" w2.
Proof.
  eexists. split; [by vm_compute|].
  apply (web_search_task_no_sources (py "best hiking trails") only_synthesis_works).
  by vm_compute.
Defined.

(** ** More on the decomposition *)

Section SplitFacts.
Implicit Types (p : N → bool) (s t q : pystr) (c sep : N).

Lemma split_at_no_cut p s :
  Forall (λ c, p c = false) s → PyStr.split_at p s = [s].
Proof.
  induction 1 as [|c s Hc _ IH]; simpl; [done|]. by rewrite Hc, IH.
Qed.

Lemma split_at_cut p s sep t :
  Forall (λ c, p c = false) s → p sep = true →
  PyStr.split_at p (s ++ sep :: t) = s :: PyStr.split_at p t.
Proof.
  intros Hs Hsep. induction Hs as [|c s Hc _ IH]; simpl.
  - by rewrite Hsep.
  - by rewrite Hc, IH.
Qed.

Lemma not_elem_of_eqb sep s :
  sep ∉ s → Forall (λ c, (c =? sep)%N = false) s.
Proof.
  intros Hs. apply Forall_forall. intros c Hc.
  apply N.eqb_neq. by intros ->.
Qed.

(** Splitting the join of lines that hold no separator gives the lines
    back. *)
Lemma split_of_join sep (lines : list pystr) :
  lines ≠ [] → Forall (λ q, sep ∉ q) lines →
  PyStr.split sep (PyStr.join [sep] lines) = lines.
Proof.
  intros Hne Hlines. unfold PyStr.split.
  induction Hlines as [|q lines Hq Hlines IH]; [done|].
  destruct lines as [|q' lines].
  - simpl. by apply split_at_no_cut, not_elem_of_eqb.
  - change (PyStr.join [sep] (q :: q' :: lines))
      with (q ++ sep :: PyStr.join [sep] (q' :: lines)).
    rewrite split_at_cut; [|by apply not_elem_of_eqb|by apply N.eqb_refl].
    by rewrite IH.
Qed.

Lemma lstrip_by_id p s :
  (∀ c, head s = Some c → p c = false) → PyStr.lstrip_by p s = s.
Proof.
  destruct s as [|c s]; [done|]. intros Hc. simpl. by rewrite (Hc c).
Qed.

Lemma strip_by_id p s :
  (∀ c, head s = Some c → p c = false) →
  (∀ c, last s = Some c → p c = false) →
  PyStr.strip_by p s = s.
Proof.
  intros Hhead Hlast. unfold PyStr.strip_by, PyStr.rstrip_by.
  rewrite (lstrip_by_id p s Hhead), lstrip_by_id.
  - apply reverse_involutive.
  - intros c Hc. apply Hlast. by rewrite <- head_reverse.
Qed.

(** What [strip_by] leaves is a part of the string. *)
Lemma strip_by_elem p s c : c ∈ PyStr.strip_by p s → c ∈ s.
Proof.
  destruct (strip_by_spec p s) as (pre & suf & Hs & _). intros Hc.
  rewrite Hs, !elem_of_app. auto.
Qed.

Lemma clean_query_strip q :
  clean_query q →
  PyStr.strip q = q ∧ PyStr.strip_chars [PyStr.dquote] q = q.
Proof.
  intros (_ & _ & Hhead & Hlast). split.
  - apply strip_by_id; intros c Hc; [by apply Hhead|by apply Hlast].
  - apply strip_by_id; intros c Hc; apply bool_decide_eq_false;
      rewrite list_elem_of_singleton; [by apply Hhead|by apply Hlast].
Qed.

Lemma parse_queries_clean (queries : list pystr) :
  queries ≠ [] → Forall clean_query queries →
  parse_queries (PyStr.join [PyStr.nl] queries) = queries.
Proof.
  intros Hne Hclean. unfold parse_queries.
  rewrite split_of_join; [|done|].
  2:{ eapply Forall_impl; [done|]. by intros q (_ & Hnl & _). }
  clear Hne. induction Hclean as [|q queries Hq _ IH]; [done|].
  destruct (clean_query_strip q Hq) as [Hstrip Hquotes].
  cbn [List.filter]. rewrite Hstrip.
  destruct q as [|c q]; [by destruct Hq|]. cbn [PyStr.truthy].
  rewrite fmap_cons, IH, Hstrip, Hquotes. done.
Qed.

(** A query that comes out of the parse is on one line and has no
    double quote at either end. *)
Lemma parse_queries_unquoted (response : pystr) :
  Forall unquoted_no_newline (parse_queries response).
Proof.
  unfold parse_queries, unquoted_no_newline. apply Forall_fmap, Forall_forall. intros line Hline.
  apply list_elem_of_In, filter_In in Hline as [Hline _].
  apply list_elem_of_In in Hline.
  pose proof (split_no_sep PyStr.nl response) as Hnl.
  rewrite Forall_forall in Hnl. specialize (Hnl line Hline). simpl.
  destruct (strip_by_spec (λ c, bool_decide (c ∈ [PyStr.dquote])) (PyStr.strip line))
    as (pre & suf & _ & _ & _ & Hhead & Hlast).
  split_and!.
  - intros Hin. by apply Hnl, (strip_by_elem PyStr.isspace), (strip_by_elem _ _ _ Hin).
  - intros Hq. apply Hhead in Hq. apply bool_decide_eq_false in Hq.
    apply Hq. by apply list_elem_of_singleton.
  - intros Hq. apply Hlast in Hq. apply bool_decide_eq_false in Hq.
    apply Hq. by apply list_elem_of_singleton.
Qed.

End SplitFacts.

Section DecomposeMore.
Context {W : Type} `{!Console W} `{!Collaborators W}.
Implicit Types (w : W) (user_query : pystr).

(** X8. When the model answers as the prompt asks, with clean queries
    (not empty, no whitespace or double quote at their ends) one per
    line, [decompose_query] returns exactly these queries, in order and
    however many they are. *)
Theorem decompose_query_round_trip user_query (queries : list pystr) w :
  queries ≠ [] →
  Forall clean_query queries →
  (openai_chat (decompose_prompt user_query) w).1
  = Ok (Some (PyStr.join [PyStr.nl] queries)) →
  decompose_query user_query w
  = (Ok queries, (openai_chat (decompose_prompt user_query) w).2).
Proof.
  intros Hne Hclean Hreply.
  rewrite (decompose_query_replied user_query w _ Hreply),
    (parse_queries_clean queries Hne Hclean).
  destruct queries as [|q queries]; [done|].
  apply Forall_cons in Hclean as [(Hq & _) _].
  assert (PyStr.truthy (PyStr.join [PyStr.nl] (q :: queries)) = true) as ->; [|done].
  destruct q as [|c q]; [done|]. by destruct queries.
Qed.

(** X9. When the log line of a failing model call is printed, every
    list [decompose_query] returns is either the original query alone,
    or a list of pieces of lines of the response, each without line
    feed and without a double quote at either end. *)
Theorem decompose_query_unquoted user_query w :
  model_log_printed (decompose_prompt user_query) w →
  ∃ sub_queries w',
    decompose_query user_query w = (Ok sub_queries, w')
    ∧ (sub_queries = [user_query] ∨ Forall unquoted_no_newline sub_queries).
Proof.
  rewrite decompose_query_outcome. unfold model_log_printed.
  destruct (openai_chat (decompose_prompt user_query) w) as [[[response|]|e] w1].
  - intros _. eexists _, _. split; [done|].
    destruct (PyStr.truthy response); [|by left].
    pose proof (parse_queries_unquoted response) as Hparse.
    destruct (parse_queries response); [by left|by right].
  - intros _. eexists _, _. split; [done|by left].
  - intros Hprinted. rewrite (log_then_printed _ _ _ Hprinted).
    eexists _, _. split; [done|by left].
Qed.

(** X10. When the provider's results are read to their end,
    [perform_search] returns one result for each of them, in their
    order and with exactly the keys [title], [link] and [description]:
    the limit [num_results] is handed to the provider and not applied
    again, and the other keys of the provider are dropped. *)
Theorem perform_search_keys (query : pystr) (num_results : nat) w items :
  (ddgs_text query num_results w).1 = (items, None) →
  ∃ results,
    perform_search query num_results w = (Ok results, (ddgs_text query num_results w).2)
    ∧ length results = length items
    ∧ Forall (λ r : search_result, dom r = {[ "title"; "link"; "description" ]}) results.
Proof.
  intros Hitems. rewrite perform_search_outcome.
  destruct (ddgs_text query num_results w) as [found w1]. simpl in Hitems. subst found.
  eexists. split; [done|]. split; [by rewrite length_fmap|].
  apply Forall_fmap, Forall_true. intros d. unfold to_search_result. simpl.
  rewrite !dom_insert_L, dom_empty_L. set_solver.
Qed.

(** X11. With a model type that is neither [openai] nor [gemini],
    [generate_response] returns [None] and calls no provider: the
    world is left as it was. *)
Theorem generate_response_unknown_model (prompt : pystr) (model_type : string) w :
  model_type ≠ "openai" → model_type ≠ "gemini" →
  generate_response prompt model_type w = (Ok None, w).
Proof.
  intros Hopenai Hgemini. unfold generate_response, try_except.
  by rewrite !decide_False by done.
Qed.

(** X12. [generate_response] raises only when the call to the provider
    raised and the [print] of its log line raised in turn. When it
    returns, with [gemini] it gives the text of the provider, the empty
    text included, with [openai] the content of the message, and with
    either [None] when the call raised. *)
Theorem generate_response_logged (prompt : pystr) (model_type : string) w :
  match generate_response prompt model_type w with
  | (Ok reply, _) =>
      (model_type = "openai" →
       reply = match (openai_chat prompt w).1 with
               | Ok content => content
               | Raise _ => None
               end)
      ∧ (model_type = "gemini" →
         reply = match (gemini_generate prompt w).1 with
                 | Ok response_text => Some response_text
                 | Raise _ => None
                 end)
  | (Raise e', _) =>
      ∃ e w1,
        ((model_type = "openai" ∧ openai_chat prompt w = (Raise e, w1))
         ∨ (model_type = "gemini" ∧ gemini_generate prompt w = (Raise e, w1)))
        ∧ (py_print (response_error_line model_type e) w1).1 = Raise e'
  end.
Proof.
  unfold generate_response, try_except.
  destruct (decide (model_type = "openai")) as [->|Hopenai].
  - destruct (openai_chat prompt w) as [[content|e] w1] eqn:Hcall; simpl.
    + split; [done|by intros [=]].
    + rewrite bind_at.
      destruct (py_print (response_error_line "openai" e) w1) as [[[]|e'] w2] eqn:Hprint.
      * split; [done|by intros [=]].
      * exists e, w1. split; [by left|by rewrite Hprint].
  - destruct (decide (model_type = "gemini")) as [->|Hgemini]; [|by split].
    rewrite bind_at.
    destruct (gemini_generate prompt w) as [[response_text|e] w1] eqn:Hcall; simpl.
    + split; [by intros [=]|done].
    + rewrite bind_at.
      destruct (py_print (response_error_line "gemini" e) w1) as [[[]|e'] w2] eqn:Hprint.
      * split; [by intros [=]|done].
      * exists e, w1. split; [by right|by rewrite Hprint].
Qed.

End DecomposeMore.

Lemma decompose_query_round_trip_witness :
  decompose_query (py "hiking") (one_reply (PyStr.join [PyStr.nl] three_queries))
  = (Ok three_queries,
     (openai_chat (decompose_prompt (py "hiking"))
        (one_reply (PyStr.join [PyStr.nl] three_queries))).2).
Proof.
  apply (decompose_query_round_trip (py "hiking") three_queries
           (one_reply (PyStr.join [PyStr.nl] three_queries))).
  - done.
  - unfold three_queries.
    repeat (apply Forall_cons; split; [|]); [..|by constructor];
      (split_and!;
       [ done
       | apply (bool_decide_unpack _); by vm_compute
       | by intros c [= <-]
       | by intros c [= <-] ]).
  - reflexivity.
Defined.

Lemma decompose_query_unquoted_witness :
  ∃ sub_queries w',
    decompose_query (py "hiking") console_breaks = (Ok sub_queries, w')
    ∧ (sub_queries = [py "hiking"] ∨ Forall unquoted_no_newline sub_queries).
Proof.
  apply (decompose_query_unquoted (py "hiking") console_breaks). reflexivity.
Defined.

Lemma perform_search_keys_witness :
  ∃ results,
    perform_search (py "parks") 2 busy_world
    = (Ok results, (ddgs_text (py "parks") 2 busy_world).2)
    ∧ length results
      = length [ddg "Parks" "https://a.example" "about parks";
                ddg_no_href "Lost" "no address"]
    ∧ Forall (λ r : search_result, dom r = {[ "title"; "link"; "description" ]}) results.
Proof.
  apply (perform_search_keys (py "parks") 2 busy_world
           [ddg "Parks" "https://a.example" "about parks";
            ddg_no_href "Lost" "no address"]).
  reflexivity.
Defined.

Lemma generate_response_unknown_model_witness :
  generate_response (py "hello") "claude" (one_reply (py "answer"))
  = (Ok None, one_reply (py "answer")).
Proof.
  apply (generate_response_unknown_model (py "hello") "claude" (one_reply (py "answer")));
    by intros [=].
Defined.

(** * Streaming and persistence *)

Section StreamFacts.
Context {W : Type} `{!Streams W}.
Implicit Types (w : W) (prompt : pystr).

Lemma nonempty_contents (contents : list (option pystr)) :
  Forall (λ chunk, chunk ≠ []) (omap nonempty_content contents)
  ∧ mjoin (omap nonempty_content contents) = mjoin (default [] <$> contents).
Proof.
  induction contents as [|[[|c s]|] contents [IHne IHjoin]]; simpl in *.
  - by split.
  - by split.
  - split; [by constructor|]. do 2 f_equal. exact IHjoin.
  - by split.
Qed.

Lemma nonempty_texts (chunks : list pystr) :
  Forall (λ chunk, chunk ≠ [])
         (omap (λ chunk_text, nonempty_content (Some chunk_text)) chunks)
  ∧ mjoin (omap (λ chunk_text, nonempty_content (Some chunk_text)) chunks)
    = mjoin chunks.
Proof.
  induction chunks as [|[|c s] chunks [IHne IHjoin]]; simpl in *.
  - by split.
  - by split.
  - split; [by constructor|]. do 2 f_equal. exact IHjoin.
Qed.

Lemma foldl_app_mjoin (chunks : list pystr) (full_response : pystr) :
  foldl (λ full_response chunk, full_response ++ chunk) full_response chunks
  = full_response ++ mjoin chunks.
Proof.
  revert full_response. induction chunks as [|chunk chunks IH]; intros full_response; simpl.
  - by rewrite app_nil_r.
  - by rewrite IH, app_assoc.
Qed.

(** X13. The streams never yield an empty chunk, and dropping the empty
    and missing contents loses no text: the chunks yielded, put end to
    end, are the contents of the provider put end to end. An exception
    of the provider ends the stream after the chunks that came before
    it. *)
Theorem stream_chunks prompt w :
  (Forall (λ chunk, chunk ≠ []) (stream_openai prompt w).1.1
   ∧ mjoin (stream_openai prompt w).1.1
     = mjoin (default [] <$> (openai_stream prompt w).1.1)
   ∧ (stream_openai prompt w).1.2 = (openai_stream prompt w).1.2)
  ∧ (Forall (λ chunk, chunk ≠ []) (stream_gemini prompt w).1.1
     ∧ mjoin (stream_gemini prompt w).1.1 = mjoin (gemini_stream prompt w).1.1
     ∧ (stream_gemini prompt w).1.2 = (gemini_stream prompt w).1.2).
Proof.
  unfold stream_openai, stream_gemini. split.
  - destruct (openai_stream prompt w) as [[contents err] w']. simpl.
    destruct (nonempty_contents contents) as [Hne Hjoin]. by split_and!.
  - destruct (gemini_stream prompt w) as [[chunks err] w']. simpl.
    destruct (nonempty_texts chunks) as [Hne Hjoin]. by split_and!.
Qed.

End StreamFacts.

Section SaveFacts.
Context {W : Type} `{!Console W} `{!Streams W}.
Implicit Types (w : W) (prompt provider : pystr).

Lemma mjoin_truthy (chunks : list pystr) :
  Forall (λ chunk, chunk ≠ []) chunks →
  PyStr.truthy (mjoin chunks) = match chunks with [] => false | _ :: _ => true end.
Proof.
  intros Hne. destruct Hne as [|chunk chunks Hchunk _]; [done|].
  by destruct chunk.
Qed.

Lemma selected_stream_nonempty prompt provider w :
  Forall (λ chunk, chunk ≠ [])
    ((if decide (provider = py "gemini") then stream_gemini prompt
      else stream_openai prompt) w).1.1.
Proof.
  case_decide.
  - unfold stream_gemini. destruct (gemini_stream prompt w) as [[chunks err] w'].
    apply nonempty_texts.
  - unfold stream_openai. destruct (openai_stream prompt w) as [[contents err] w'].
    apply nonempty_contents.
Qed.

(** X14. The generator of the [chat] endpoint streams [gemini] when the
    provider is [gemini] and [openai] for any other value, and yields
    the chunks of the stream up to its end or its failure. It schedules
    a save exactly when at least one chunk was yielded, with the
    yielded chunks put end to end as the response, also when the stream
    broke part-way. A failure of the stream is logged, and an exception
    leaves the generator only when the [print] of that log line
    raises; the save is scheduled all the same. *)
Theorem generate_and_save_saves (user_id thread_id prompt provider : pystr) w :
  ∃ chunks err w1,
    (if decide (provider = py "gemini") then stream_gemini prompt
     else stream_openai prompt) w = ((chunks, err), w1)
    ∧ generate_and_save user_id thread_id prompt provider w
      = match err with
        | None =>
            ({| yielded := chunks;
                scheduled := saved_call user_id thread_id prompt chunks;
                escaped := None |}, w1)
        | Some e =>
            match py_print (error_line "Stream error: " e) w1 with
            | (Ok _, w2) =>
                ({| yielded := chunks;
                    scheduled := saved_call user_id thread_id prompt chunks;
                    escaped := None |}, w2)
            | (Raise e', w2) =>
                ({| yielded := chunks;
                    scheduled := saved_call user_id thread_id prompt chunks;
                    escaped := Some e' |}, w2)
            end
        end.
Proof.
  pose proof (selected_stream_nonempty prompt provider w) as Hne.
  unfold generate_and_save.
  destruct ((if decide (provider = py "gemini") then stream_gemini prompt
             else stream_openai prompt) w) as [[chunks err] w1].
  exists chunks, err, w1. split; [done|]. simpl in Hne. cbv zeta.
  rewrite foldl_app_mjoin, app_nil_l, (mjoin_truthy chunks Hne).
  assert ((if match chunks with [] => false | _ :: _ => true end
           then Some {| save_user_id := user_id; save_thread_id := thread_id;
                        save_prompt := prompt; save_response := mjoin chunks |}
           else None) = saved_call user_id thread_id prompt chunks) as ->.
  { by destruct chunks. }
  destruct err as [e|]; [|done].
  by destruct (py_print (error_line "Stream error: " e) w1) as [[[]|e'] w2].
Qed.

End SaveFacts.

Section ChatFacts.
Context {W Row : Type} `{!Console W} `{!Supabase W Row}.
Implicit Types (w : W) (user_id thread_id : pystr).

Lemma get_user_threads_outcome user_id w :
  get_user_threads user_id w
  = match sb_execute (threads_query user_id) w with
    | (Ok rows, w1) => (Ok rows, w1)
    | (Raise e, w1) => log_then (error_line "Error fetching threads: " e) [] w1
    end.
Proof.
  unfold get_user_threads, try_except.
  by destruct (sb_execute (threads_query user_id) w) as [[rows|e] w1].
Qed.

(** X15. When the ownership request of [get_thread_chats] finds no
    thread with this id for this user, the result is the empty list and
    the chat history is not requested. When a thread is found, the
    result is the rows of the chat history. When either request raises,
    the exception is logged and the result is the empty list;
    [get_thread_chats] raises only when the [print] of that log line
    does. *)
Theorem get_thread_chats_gate user_id thread_id w :
  match sb_execute (ownership_query user_id thread_id) w with
  | (Ok [], w1) => get_thread_chats user_id thread_id w = (Ok [], w1)
  | (Ok (_ :: _), w1) =>
      match sb_execute (chats_query thread_id) w1 with
      | (Ok rows, w2) => get_thread_chats user_id thread_id w = (Ok rows, w2)
      | (Raise e, w2) =>
          get_thread_chats user_id thread_id w
          = log_then (error_line "Error fetching chats: " e) [] w2
      end
  | (Raise e, w1) =>
      get_thread_chats user_id thread_id w
      = log_then (error_line "Error fetching chats: " e) [] w1
  end.
Proof.
  unfold get_thread_chats, try_except. rewrite bind_at.
  destruct (sb_execute (ownership_query user_id thread_id) w)
    as [[[|thread threads]|e] w1]; [done| |done].
  by destruct (sb_execute (chats_query thread_id) w1) as [[rows|e] w2].
Qed.

(** X16. [save_chat_message] answers [true] exactly when both requests
    succeed. When the insertion of the message raises, the thread is
    not touched; when the insertion succeeds and the update of the
    thread raises, the answer is [false] although the message was
    inserted. In both cases the exception is logged, and
    [save_chat_message] raises only when the [print] of that log line
    does. The user id plays no part: no request checks that the thread
    belongs to the user. *)
Theorem save_chat_message_outcome user_id thread_id (prompt response : pystr) w :
  match sb_execute (insert_message thread_id prompt response) w with
  | (Raise e, w1) =>
      save_chat_message user_id thread_id prompt response w
      = log_then (error_line "Error saving chat: " e) false w1
  | (Ok _, w1) =>
      match sb_execute (touch_thread thread_id) w1 with
      | (Ok _, w2) =>
          save_chat_message user_id thread_id prompt response w = (Ok true, w2)
      | (Raise e, w2) =>
          save_chat_message user_id thread_id prompt response w
          = log_then (error_line "Error saving chat: " e) false w2
      end
  end
  ∧ (∀ other_user : pystr,
       save_chat_message other_user thread_id prompt response w
       = save_chat_message user_id thread_id prompt response w).
Proof.
  split; [|done].
  unfold save_chat_message, try_except. rewrite bind_at.
  destruct (sb_execute (insert_message thread_id prompt response) w)
    as [[inserted|e] w1]; [|done].
  rewrite bind_at.
  by destruct (sb_execute (touch_thread thread_id) w1) as [[touched|e] w2].
Qed.

(** X17. [create_thread] returns the first row the insertion gives
    back, and [None] when it gives back no row. When the insertion
    raises, the exception is logged and the result is [None];
    [create_thread] raises only when the [print] of that log line
    does. *)
Theorem create_thread_outcome user_id (title : pystr) w :
  match sb_execute (insert_thread user_id title) w with
  | (Ok (row :: _), w1) => create_thread user_id title w = (Ok (Some row), w1)
  | (Ok [], w1) => create_thread user_id title w = (Ok None, w1)
  | (Raise e, w1) =>
      create_thread user_id title w
      = log_then (error_line "Error creating thread: " e) None w1
  end.
Proof.
  unfold create_thread, try_except. rewrite bind_at.
  by destruct (sb_execute (insert_thread user_id title) w) as [[[|row rows]|e] w1].
Qed.

End ChatFacts.

(** * The protected endpoints *)

Section Header.
Implicit Types (s prefix rest token : pystr).

Lemma startswith_app prefix rest : startswith (prefix ++ rest) prefix = true.
Proof.
  induction prefix as [|p prefix IH]; simpl; [by destruct rest|].
  by rewrite N.eqb_refl, IH.
Qed.

Lemma startswith_inv s prefix :
  startswith s prefix = true → ∃ rest, s = prefix ++ rest.
Proof.
  revert s. induction prefix as [|p prefix IH]; intros s Hs.
  - by exists s.
  - destruct s as [|c s]; [done|]. simpl in Hs.
    apply andb_true_iff in Hs as [Hc Hs]. apply N.eqb_eq in Hc as ->.
    destruct (IH s Hs) as [rest ->]. by exists rest.
Qed.

(** The pieces of a header that starts with [Bearer] and a space. *)
Lemma split_bearer rest :
  PyStr.split 32%N (py "Bearer " ++ rest) = py "Bearer" :: PyStr.split 32%N rest.
Proof.
  unfold PyStr.split.
  change (py "Bearer " ++ rest) with (py "Bearer" ++ 32%N :: rest).
  apply split_at_cut; [|done]. by repeat constructor.
Qed.

(** X18. The header check of the protected endpoints answers 401 when
    the header is missing or does not start with [Bearer] and a space.
    Otherwise the subscript [1] is in range, so no [IndexError] arises,
    and the token is what follows the prefix up to the next space: it
    holds no space, it is empty when nothing follows, and it is the
    whole remainder when that has no space. *)
Theorem bearer_token_spec :
  bearer_token None = Throw (HTTPException 401 (py "Missing or invalid token"))
  ∧ (∀ authorization,
       startswith authorization (py "Bearer ") = false →
       bearer_token (Some authorization)
       = Throw (HTTPException 401 (py "Missing or invalid token")))
  ∧ (∀ authorization,
       startswith authorization (py "Bearer ") = true →
       ∃ rest token,
         authorization = py "Bearer " ++ rest
         ∧ bearer_token (Some authorization) = Return token
         ∧ head (PyStr.split 32%N rest) = Some token
         ∧ (32%N ∉ token)
         ∧ (32%N ∉ rest → token = rest)).
Proof.
  split_and!.
  - done.
  - intros authorization Hstart. unfold bearer_token. rewrite Hstart.
    by rewrite orb_true_r.
  - intros authorization Hstart.
    destruct (startswith_inv _ _ Hstart) as [rest ->].
    pose proof (split_at_not_nil (λ c, (c =? 32)%N) rest) as Hne.
    pose proof (split_no_sep 32%N rest) as Hpieces.
    destruct (PyStr.split 32%N rest) as [|token pieces] eqn:Hsplit; [done|].
    exists rest, token. split; [done|]. split_and!.
    + unfold bearer_token. rewrite Hstart, split_bearer, Hsplit. done.
    + by rewrite Hsplit.
    + by apply Forall_cons in Hpieces as [Htoken _].
    + intros Hrest. unfold PyStr.split in Hsplit.
      rewrite split_at_no_cut in Hsplit by (by apply not_elem_of_eqb).
      by injection Hsplit as <- _.
Qed.

End Header.

Section EndpointFacts.
Context {W Row : Type} `{!Console W} `{!Supabase W Row} `{!Framework W Row} `{!Streams W}.
Implicit Types (w : W) (authorization : option pystr).

Lemma hbind_at {A B} (m : H W A) (f : A → H W B) w :
  (m ≫= f) w
  = match m w with
    | (Return a, w') => f a w'
    | (Throw e, w') => (Throw e, w')
    end.
Proof. done. Qed.

Lemma session_user_outcome (token : pystr) w :
  session_user token w
  = match auth_get_user token w with
    | (Ok (Some user_id), w1) => (Return user_id, w1)
    | (Ok None, w1) => (Throw (HTTPException 401 (py "Invalid session")), w1)
    | (Raise e, w1) => (Throw (Uncaught e), w1)
    end.
Proof.
  unfold session_user. rewrite hbind_at. unfold call.
  by destruct (auth_get_user token w) as [[[user_id|]|e] w1].
Qed.

(** X19. [get_threads] answers 401 only for a bad header. Once the
    header is accepted, a session without user and a failure of the
    session check both end in status 500, the 401 raised inside the
    [try] being caught by its own [except]. With a session the endpoint
    answers with what [get_user_threads] returns, and with status 500
    when [get_user_threads] raises. [get_user_threads] returns the rows
    of its request, and the empty list after a failure of the request,
    which it logs; it raises only when the [print] of that log line
    does. *)
Theorem get_threads_outcome authorization w :
  match bearer_token authorization with
  | Throw e => get_threads authorization w = (Throw e, w)
  | Return token =>
      match auth_get_user token w with
      | (Ok (Some user_id), w1) =>
          match get_user_threads user_id w1 with
          | (Ok threads, w2) => get_threads authorization w = (Return threads, w2)
          | (Raise e, w2) =>
              get_threads authorization w
              = (Throw (HTTPException 500 (exception_str (Uncaught e))), w2)
          end
      | (Ok None, w1) =>
          get_threads authorization w
          = (Throw (HTTPException 500
                      (exception_str (HTTPException 401 (py "Invalid session")))), w1)
      | (Raise e, w1) =>
          get_threads authorization w
          = (Throw (HTTPException 500 (exception_str (Uncaught e))), w1)
      end
  end
  ∧ (∀ (user_id : pystr) w1,
       get_user_threads user_id w1
       = match sb_execute (threads_query user_id) w1 with
         | (Ok rows, w2) => (Ok rows, w2)
         | (Raise e, w2) => log_then (error_line "Error fetching threads: " e) [] w2
         end).
Proof.
  split; [|apply get_user_threads_outcome].
  unfold get_threads. rewrite hbind_at. unfold pure_step.
  destruct (bearer_token authorization) as [token|e]; [|done].
  unfold try_except_api. rewrite hbind_at, session_user_outcome.
  destruct (auth_get_user token w) as [[[user_id|]|e] w1]; [|done..].
  unfold call. by destruct (get_user_threads user_id w1) as [[threads|e] w2].
Qed.

(** X20. [chat] answers 401 for every failure before the stream: a bad
    header, a session without user, a failure of the session check;
    the detail of the last two is the same. With a session it returns
    the stream of [generate_and_save] for the user of the session. *)
Theorem chat_outcome (prompt thread_id provider : pystr) authorization w :
  match bearer_token authorization with
  | Throw e => chat prompt thread_id provider authorization w = (Throw e, w)
  | Return token =>
      match auth_get_user token w with
      | (Ok (Some user_id), w1) =>
          chat prompt thread_id provider authorization w
          = (Return (generate_and_save user_id thread_id prompt provider w1).1,
             (generate_and_save user_id thread_id prompt provider w1).2)
      | (_, w1) =>
          chat prompt thread_id provider authorization w
          = (Throw (HTTPException 401 (py "Authentication failed")), w1)
      end
  end.
Proof.
  unfold chat. rewrite hbind_at. unfold pure_step.
  destruct (bearer_token authorization) as [token|e]; [|done].
  rewrite hbind_at. unfold try_except_api. rewrite session_user_outcome.
  destruct (auth_get_user token w) as [[[user_id|]|e] w1]; [|done..].
  unfold streaming_response.
  by destruct (generate_and_save user_id thread_id prompt provider w1).
Qed.

(** X21. [get_chats] with an accepted header and a session answers with
    what [get_thread_chats] returns, and with status 500 when it
    raises; for a thread that is not the user's the answer is the empty
    list and no error. Without a session the status is 500. *)
Theorem get_chats_outcome (thread_id : pystr) authorization w :
  match bearer_token authorization with
  | Throw e => get_chats thread_id authorization w = (Throw e, w)
  | Return token =>
      match auth_get_user token w with
      | (Ok (Some user_id), w1) =>
          match get_thread_chats user_id thread_id w1 with
          | (Ok chats, w2) => get_chats thread_id authorization w = (Return chats, w2)
          | (Raise e, w2) =>
              get_chats thread_id authorization w
              = (Throw (HTTPException 500 (exception_str (Uncaught e))), w2)
          end
          ∧ (∀ w2, sb_execute (ownership_query user_id thread_id) w1 = (Ok [], w2) →
                   get_chats thread_id authorization w = (Return [], w2))
      | (Ok None, w1) =>
          get_chats thread_id authorization w
          = (Throw (HTTPException 500
                      (exception_str (HTTPException 401 (py "Invalid session")))), w1)
      | (Raise e, w1) =>
          get_chats thread_id authorization w
          = (Throw (HTTPException 500 (exception_str (Uncaught e))), w1)
      end
  end.
Proof.
  unfold get_chats. rewrite hbind_at. unfold pure_step.
  destruct (bearer_token authorization) as [token|e]; [|done].
  unfold try_except_api. rewrite hbind_at, session_user_outcome.
  destruct (auth_get_user token w) as [[[user_id|]|e] w1]; [|done..].
  unfold call. split.
  - by destruct (get_thread_chats user_id thread_id w1) as [[chats|e] w2].
  - intros w2 Hnone. unfold get_thread_chats, try_except.
    by rewrite bind_at, Hnone.
Qed.

(** X22. [new_chat] answers 401 only for a bad header. With a session
    it answers with the row [create_thread] returns when that row is
    true, and with status 500 when [create_thread] returns a row that
    is not true, returns [None] or raises; without a session, and when
    the session check fails, the status is 500 as well. *)
Theorem new_chat_outcome (title : pystr) authorization w :
  match bearer_token authorization with
  | Throw e => new_chat title authorization w = (Throw e, w)
  | Return token =>
      match auth_get_user token w with
      | (Ok (Some user_id), w1) =>
          match create_thread user_id title w1 with
          | (Ok (Some row), w2) =>
              new_chat title authorization w
              = if row_truthy row then (Return row, w2)
                else (Throw (HTTPException 500
                               (exception_str
                                  (HTTPException 500 (py "Failed to create thread")))),
                      w2)
          | (Ok None, w2) =>
              new_chat title authorization w
              = (Throw (HTTPException 500
                          (exception_str
                             (HTTPException 500 (py "Failed to create thread")))),
                 w2)
          | (Raise e, w2) =>
              new_chat title authorization w
              = (Throw (HTTPException 500 (exception_str (Uncaught e))), w2)
          end
      | (Ok None, w1) =>
          new_chat title authorization w
          = (Throw (HTTPException 500
                      (exception_str (HTTPException 401 (py "Invalid session")))), w1)
      | (Raise e, w1) =>
          new_chat title authorization w
          = (Throw (HTTPException 500 (exception_str (Uncaught e))), w1)
      end
  end.
Proof.
  unfold new_chat. rewrite hbind_at. unfold pure_step.
  destruct (bearer_token authorization) as [token|e]; [|done].
  unfold try_except_api. rewrite hbind_at, session_user_outcome.
  destruct (auth_get_user token w) as [[[user_id|]|e] w1]; [|done..].
  rewrite hbind_at. unfold call.
  destruct (create_thread user_id title w1) as [[[row|]|e] w2]; [|done..].
  by destruct (row_truthy row).
Qed.

End EndpointFacts.

(** ** The endpoints in the small world *)

(** The stream breaks after two chunks; both were yielded, and their
    text is saved for the user of the session. *)
Example chat_scenario :
  @chat unit pystr demo_console demo_framework demo_streams
    (py "hi") (py "t1") (py "openai") (Some (py "Bearer good")) ()
  = (Return {| yielded := [py "Hel"; py "lo"];
               scheduled :=
                 Some {| save_user_id := py "u1"; save_thread_id := py "t1";
                         save_prompt := py "hi"; save_response := py "Hello" |};
               escaped := None |},
     ()).
Proof. reflexivity. Qed.

Example chat_no_session_scenario :
  @chat unit pystr demo_console demo_framework demo_streams
    (py "hi") (py "t1") (py "openai") (Some (py "Bearer stale")) ()
  = (Throw (HTTPException 401 (py "Authentication failed")), ()).
Proof. reflexivity. Qed.

Example get_threads_no_session_scenario :
  @get_threads unit pystr demo_console demo_db demo_framework
    (Some (py "Bearer stale")) ()
  = (Throw (HTTPException 500 (py "401: Invalid session")), ()).
Proof. reflexivity. Qed.

Example bearer_token_scenarios :
  bearer_token (Some (py "Bearer abc def")) = Return (py "abc")
  ∧ bearer_token (Some (py "Bearer ")) = Return []
  ∧ bearer_token (Some (py "bearer abc"))
    = Throw (HTTPException 401 (py "Missing or invalid token"))
  ∧ bearer_token (Some [])
    = Throw (HTTPException 401 (py "Missing or invalid token")).
Proof. by split_and!. Qed.
